(* ===== verification/_CoqProject ===== *)
-Q . S2P
Prelude.v
ErrorKinds.v
Utf8.v
StringHelper.v
Command.v
FrameBase.v
PasswordEnterRequest.v
PasswordEnterConfirmation.v
FrameRegistry.v
Frames.v
CodecSpec.v
FrameStates.v
