(* ===== verification/Prelude.v ===== *)
(** * pyvlx: the password-enter frames of the KLF-200 protocol

    This development verifies [src/new_api/pyvlx/frame_password_enter.py] of
    pyvlx, the Python client of the Velux KLF-200 gateway, together with the
    collaborators it calls (FrameBase, string_helper, the command catalogue,
    the frame registry and CPython's UTF-8 codec).  The collaborators are not
    under src/: they are modelled from the spec (spec.md, sections 4 to 7).

    ** The program and its parts

    A frame of the gateway protocol is a command tag (2 bytes) and a payload.
    The source file defines two frame classes:
    - [FramePasswordEnterRequest] (lines 9-33) holds an optional password;
      [get_payload] raises on a missing password (line 21) and on one of more
      than [MAX_SIZE] = 32 characters (line 23), then pads the UTF-8 encoding
      to 32 bytes with [string_to_bytes]; [from_payload] decodes with
      [bytes_to_string]; [__str__] shows the first two characters.
    - [FramePasswordEnterConfirmation] (lines 43-61) holds a
      [PasswortEnterConfirmationStatus] (lines 36-40: SUCCESSFUL = 0,
      FAILED = 1); its payload is the status byte; [from_payload] converts
      [payload[0]] with the Enum call.
    Both call [FrameBase.__init__] with their command.  The registry maps a
    command tag to the class that decodes the payload (spec 4.5).

    ** Files, and what each models

    - [Prelude] (this file): the Python runtime the code relies on: the
      exceptions as the inductive [exn], the spec's [error_kind]s, a call that
      returns or raises as [result] with stdpp's monad notation [x ← m; k],
      [bytes(ints)] as [py_bytes], indexing [py_getitem], slicing
      [py_slice_to], string literals [str_lit]; the shared lemmas on [result],
      the tactics [result_inv], [zlia], [zsimpl], [decide_concrete] and the
      hint databases [pyvlx] and [pyvlx_rw].
    - [ErrorKinds], Module [ErrorKinds]: [spec_error], the spec's kind of each
      raised exception (section 7), and the equivalence [≡] on results up to
      error kinds, with its [Equivalence] and [Proper] instances for bind and
      map.
    - [Utf8], Module [Utf8]: CPython's strict UTF-8 codec on Python strings as
      lists of code points: [encode] (bit-level, as CPython writes it,
      [None] for the [UnicodeEncodeError] of a lone surrogate) and [decode]
      (structural recursion, [None] for ill-formed input).
    - [StringHelper], Module [StringHelper]: [string_to_bytes],
      [bytes_to_string] and the loop [until_nul] of string_helper.py.
    - [Command], Module [Command]: the two commands of the catalogue with
      their KLF-200 values and the 2-byte big-endian tag of spec 6.
    - [FrameBase], Module [FrameBase]: the class [Frame] (the FrameBase
      contract: command, get_payload, from_payload, __str__, populated), the
      class [FrameLaws] (what a frame class promises the registry), and the
      lifecycle of the calls: [frame_step], [frame_run] and the reachability
      relation [lifecycle].
    - [PasswordEnterRequest], Module [Request]: the record
      [FramePasswordEnterRequest] (command, password), [init] for
      [__init__], [get_payload], [from_payload], [__str__], and the
      instances [request_frame] and [request_frame_laws].
    - [PasswordEnterConfirmation], Module [Confirmation]: the Enum with
      [value], [of_value] (the Enum call) and [status_str]; the record, its
      methods and instances.
    - [FrameRegistry], Module [FrameRegistry]: [build_registry] (a gmap from
      command value to prototype, [DuplicateCommand]), [decode]
      ([UnknownCommand]), [frame_to_bytes] and [frame_of_bytes], all in a
      Section generic over any [Frame] with [FrameLaws]: the client theorems
      are proved against the interface, the two classes discharge it.
    - [Frames], Module [Frames]: the closed sum [frame] of the two classes,
      its dispatching instances and the registry of the two prototypes.
    - [CodecSpec], Module [CodecSpec]: the abstract specification written
      from the spec alone: the reference codec of sections 4.3 and 4.4
      ([request_payload_ref], [confirmation_status_ref]), the abstract frames
      [abs_frame] and the wire format of section 6 as the relation
      [wire_frame], the abstraction [abs_of] of a concrete frame and the
      type invariant [frame_type_ok].
    - [FrameStates], Module [FrameStates]: the state machine of spec 4.2:
      states [(phase, frame)] with [Unpopulated] and [Populated], the step
      relation [fstep] for the three calls, the executable [fstate_step] and
      [fstate_run], the constructions [initial] and the reachable states
      [reachable].

    ** What the theorems show

    - Refinement: [CodecSpec.encoder_refines], every frame the registry codec
      writes is the wire form of its abstract frame, and
      [CodecSpec.decoder_refines], every wire form is read back to a frame
      with that abstraction; [FrameStates.registry_decode_constructs], the
      registry's [decode] is the construction of the tag's unpopulated
      frame followed by its [from_payload] step, errors included (spec
      4.5); [FrameStates.fstate_run_frame], the state machine without its
      phase is the lifecycle of [FrameBase].
    - Equivalence: [Request.from_payload_spec], the decoded password is
      exactly the NUL-free string whose encoding is the payload up to its
      first zero byte; [CodecSpec.request_get_payload_equiv] and
      [CodecSpec.confirmation_from_payload_equiv], the source equals the
      reference codec up to error kinds; [Utf8.encode_cp_ref_equiv], the
      bit-level encoder of CPython equals an arithmetic reference;
      [FrameStates.fstep_iff] and [FrameStates.reachable_run], the step
      relation is the executable step and the reachable states are those
      of the runs from a construction.
    - Round trips: [Utf8.decode_encode] and [Utf8.encode_decode] (both
      directions of the codec); [StringHelper.bytes_to_string_string_to_bytes]
      (the field gives back the string cut at its first NUL);
      [Request.get_payload_from_payload], [Confirmation.status_roundtrip];
      [Command.tag_roundtrip]; [FrameRegistry.frame_roundtrip] and its
      instance [Frames.registry_roundtrip] for whole frames; and from the
      bytes' side [CodecSpec.wire_bytes_roundtrip]: bytes read as a frame
      are written back exactly when they are the wire form of a NUL-free
      password or a status.
    - Type, invariants and safety: [CodecSpec.decode_type_ok], a decoded
      frame has its class's command, and a decoded request holds a password
      of Unicode scalar values (no surrogate) without NUL character; [FrameStates.reachable_invariant], by rule induction on
      [reachable]: a request is populated exactly when it holds a password,
      and no call returns to [Unpopulated]; [FrameStates.unpopulated_errors],
      [get_payload] raises [MissingField] and [__str__] raises [TypeError]
      exactly in an unpopulated request; [Frames.frame_run_invariant] and the
      [FrameBase] lifecycle lemmas for any frame class.
    - Liveness: [FrameStates.populate_live], from every state one
      [from_payload] populates the frame: the empty payload gives a request
      the empty password (its [get_payload] is then 32 zero bytes), the byte
      0 gives a confirmation the status SUCCESSFUL.
    - Functional behaviour and errors on every branch: [get_payload] and
      [from_payload] of both classes (the request ignores the bytes after the
      first zero byte), [__str__], the registry's lookup and errors, and
      [Request.get_payload_Err_iff] (every error of [get_payload], in the
      order of its guards), [Request.request_get_payload_errors] /
      [Frames.registry_decode_errors],
      which map every raised exception to the spec's error kinds (or show it
      has none).
    - Bounds: [CodecSpec.frame_bytes_bounds], a request is written as 34
      bytes and a confirmation as 3; the request payload has 32 bytes, the
      confirmation payload one byte, every byte is in [0, 256), the encoding has one to four bytes per
      character, a command value fits in 16 bits.
    - Redaction: [Request.__str___redacted], [__str__] depends on the first
      two characters of the password only.

    ** What the modelling showed

    - The check of line 23 counts characters, not bytes: 32 characters "é"
      pass it and are rejected only by [string_to_bytes] (64 bytes).  It
      never rejects a password the spec's codec accepts, which is why the
      request's [get_payload] equals the reference codec up to error kinds.
    - The empty password is serialized (32 zero bytes); the spec's section 3
      asks for a non-empty password.
    - [__str__] of a request built without password raises [TypeError].
    - A password with a NUL character comes back cut at the NUL; bytes that
      are not UTF-8 make [from_payload] raise [UnicodeDecodeError], and a lone
      surrogate makes [get_payload] raise [UnicodeEncodeError]: neither is an
      error kind of the spec.
    - Frames are not immutable after being populated, as spec 5 says: a
      second [from_payload] replaces the field ([Request.from_payload_spec]
      and [Confirmation.from_payload_Ok] keep nothing of the old one but its
      command).  The password is also a public attribute a caller may set
      back to [None].
    - The confirmation's [from_payload] raises [IndexError] or [ValueError]
      and ignores the bytes after the first; its [__str__] prints
      "PasswortEnterConfirmationStatus.FAILED", not the bare status name.

    ** Bounds, fuel and termination

    No definition needs fuel: the source has no loop and no recursion, the
    UTF-8 decoder recurses structurally on the byte list (one to four bytes
    per step, deep patterns), its converse theorem uses well-founded
    induction on the length, and [frame_run] and [fstate_run] recurse on the
    list of calls; Rocq's guard checker is their termination proof, so no
    termination theorem is stated.  Integers are [Z]; the ranges are
    hypotheses: a byte in [0, 256), a code point in [0, 0x10FFFF], a tag in
    [0, 65536).

    ** Not modelled

    Every line of frame_password_enter.py after its imports is modelled: both
    classes and the Enum.  A caller's direct write to the public [password]
    attribute is not a method of the class and is not modelled; the steps of
    [fstep] are the class's own calls.  Spec 5's concurrency is not modelled
    as a store of objects: frames are values here, so calls on two frames
    cannot interfere, and aliasing of Python objects belongs to the caller.
    Lines 1 to 8 are the module docstring and imports.  The
    transport (sockets, SLIP framing, the length byte and CRC of the real
    FrameBase) is outside the spec's codec layer and pure I/O.  The command
    catalogue and the registry hold the two password-enter commands only: the
    full catalogue is out of the spec's scope, the other frame classes of
    pyvlx are not part of the sources, and the registry theorems are generic
    over any [Frame] with [FrameLaws], so a further class needs only its
    instance.  No termination theorem is stated: the source has no loop or
    recursion, and Rocq's guard checker already checks that every recursive
    definition here terminates. *)

From stdpp Require Import base list strings decidable.
From Stdlib Require Import ZArith Lia.

Declare Scope pyvlx_scope.
Delimit Scope pyvlx_scope with py.
Open Scope Z_scope.

(** ** Errors: the spec's error kinds and the Python exceptions *)

(** The error kinds of the spec, section 7. *)
Inductive error_kind :=
  | MissingField
  | PayloadTooLong
  | MalformedPayload
  | UnknownCommand
  | DuplicateCommand.

(** The exceptions the modelled code raises.  [CodecError] is raised by the
    collaborators modelled from the spec (string_helper, the registry). *)
Inductive exn :=
  | PyVLXException (msg : string)
  | TypeError
  | IndexError
  | ValueError
  | UnicodeEncodeError
  | UnicodeDecodeError
  | CodecError (k : error_kind).

#[export] Instance error_kind_eq_dec : EqDecision error_kind.
Proof. solve_decision. Defined.
#[export] Instance exn_eq_dec : EqDecision exn.
Proof. solve_decision. Defined.

(** A Python call either returns a value or raises. *)
Inductive result (A : Type) : Type :=
  | Ok (a : A)
  | Err (e : exn).
Arguments Ok {A} a.
Arguments Err {A} e.

#[export] Instance result_ret : MRet result := λ A a, Ok a.
#[export] Instance result_bind : MBind result :=
  λ A B f m, match m with Ok a => f a | Err e => Err e end.
#[export] Instance result_fmap : FMap result :=
  λ A B f m, match m with Ok a => Ok (f a) | Err e => Err e end.

Notation "'raise' e" := (Err e) (at level 10, e at level 9) : pyvlx_scope.

(** The error of a result, if any. *)
Definition error_of {A} (r : result A) : option exn :=
  match r with Ok _ => None | Err e => Some e end.

(** ** Python values *)

(** A Python [str] is its sequence of code points; [bytes] a list of [Z]. *)
Abbreviation pystr := (list Z).
Abbreviation bytes := (list Z).

Definition byte_ok (b : Z) : Prop := 0 ≤ b < 256.
#[export] Instance byte_ok_dec b : Decision (byte_ok b).
Proof. unfold byte_ok. apply _. Defined.

(** [bytes(ints)]: raises [ValueError] when an int is outside [0, 256). *)
Definition py_bytes (l : list Z) : result bytes :=
  if decide (Forall byte_ok l) then Ok l else Err ValueError.

(** [seq[i]] for a non-negative index: [IndexError] out of range. *)
Definition py_getitem {A} (l : list A) (i : nat) : result A :=
  match l !! i with Some x => Ok x | None => Err IndexError end.

(** [seq[:n]]: Python slicing never raises. *)
Definition py_slice_to {A} (l : list A) (n : nat) : list A := take n l.

(** A Python string literal of ASCII characters, as code points. *)
Fixpoint str_lit (s : string) : pystr :=
  match s with
  | EmptyString => []
  | String a s' => Z.of_nat (Ascii.nat_of_ascii a) :: str_lit s'
  end.

(** ** Shared lemmas *)

Create HintDb pyvlx discriminated.
Create Rewrite HintDb pyvlx_rw.

Lemma bind_Ok {A B} (a : A) (f : A → result B) : (Ok a ≫= f) = f a.
Proof. reflexivity. Qed.

Lemma bind_Err {A B} (e : exn) (f : A → result B) : (Err e ≫= f) = Err e.
Proof. reflexivity. Qed.

Lemma fmap_Ok {A B} (a : A) (f : A → B) : (f <$> Ok a) = Ok (f a).
Proof. reflexivity. Qed.

Lemma bind_Ok_inv {A B} (m : result A) (f : A → result B) (b : B) :
  (m ≫= f) = Ok b → ∃ a, m = Ok a ∧ f a = Ok b.
Proof. destruct m; simpl; [eauto | discriminate]. Qed.

Lemma bind_Err_inv {A B} (m : result A) (f : A → result B) (e : exn) :
  (m ≫= f) = Err e → m = Err e ∨ ∃ a, m = Ok a ∧ f a = Err e.
Proof. destruct m as [a|e']; simpl; [eauto | intros [= ->]; auto]. Qed.

Lemma fmap_Ok_inv {A B} (m : result A) (f : A → B) (b : B) :
  (f <$> m) = Ok b → ∃ a, m = Ok a ∧ b = f a.
Proof. destruct m; simpl; [intros [= <-]; eauto | discriminate]. Qed.

#[export] Hint Rewrite @bind_Ok @bind_Err @fmap_Ok : pyvlx_rw.

Lemma py_bytes_ok (l : list Z) : Forall byte_ok l → py_bytes l = Ok l.
Proof. intros H. unfold py_bytes. by rewrite decide_True. Qed.

Lemma py_getitem_ok {A} (l : list A) i x : l !! i = Some x → py_getitem l i = Ok x.
Proof. unfold py_getitem. by intros ->. Qed.

Lemma Forall_byte_ok_replicate n : Forall byte_ok (replicate n 0).
Proof. apply Forall_replicate. unfold byte_ok. lia. Qed.

Lemma Forall_prefix {A} (P : A → Prop) (l1 l2 : list A) :
  Forall P l2 → l1 `prefix_of` l2 → Forall P l1.
Proof. intros H [k ->]. by apply Forall_app in H as [? _]. Qed.

#[export] Hint Resolve py_bytes_ok py_getitem_ok Forall_byte_ok_replicate : pyvlx.

(** ** Tactics *)

(** Decompose the hypotheses [m ≫= f = Ok b] and [f <$> m = Ok b]. *)
Ltac result_inv :=
  repeat match goal with
  | H : (_ ≫= _) = Ok _ |- _ =>
      let a := fresh "a" in let Ha := fresh "Ha" in
      apply bind_Ok_inv in H as (a & Ha & H)
  | H : (_ <$> _) = Ok _ |- _ =>
      let a := fresh "a" in let Ha := fresh "Ha" in
      apply fmap_Ok_inv in H as (a & Ha & H)
  | H : Ok _ = Ok _ |- _ => injection H as H
  | H : Ok _ = Err _ |- _ => discriminate H
  | H : Err _ = Ok _ |- _ => discriminate H
  end; subst.

(** Close a decidable proposition on a concrete input by evaluation. *)
Ltac decide_concrete :=
  match goal with |- ?P => apply (bool_decide_unpack P); vm_compute; exact I end.

(** Case on one boolean comparison of [Z] in the goal, as a proposition. *)
Ltac zcase :=
  match goal with
  | |- context [Z.leb ?a ?b] => destruct (Z.leb_spec a b)
  | |- context [Z.ltb ?a ?b] => destruct (Z.ltb_spec a b)
  | |- context [Z.eqb ?a ?b] => destruct (Z.eqb_spec a b)
  end.

(** [lia] after naming the quotient and remainder of every [/] and [mod]. *)
Ltac zlia := Z.to_euclidean_division_equations; lia.

(** Decide every comparison of the goal, dropping the branches [zlia]
    refutes. *)
Ltac zsimpl := repeat (zcase; cbn [andb orb negb]; try (exfalso; zlia)).
