(* ===== verification/ErrorKinds.v ===== *)
(** * The spec's error kinds, and results equal up to them

    [spec_error] maps each exception the frames raise to the error kind of
    the spec's section 7 ([None] for the exceptions the spec does not list).
    Two results are equivalent, [r1 ≡ r2], when they return the same value
    or raise errors of the same kind; errors outside the spec's kinds are
    equivalent only when equal.  This is the equivalence under which the
    source is compared with the reference codec written from the spec
    ([CodecSpec]): the source raises Python exceptions with messages where
    the spec names typed failures.

    [≡] is an [Equivalence], bind and map are [Proper] for it, so the
    comparisons rewrite with setoid rewriting. *)

From stdpp Require Import base list decidable strings.
From Stdlib Require Import ZArith Lia Morphisms.
From S2P Require Import Prelude.

Module ErrorKinds.

Definition spec_error (e : exn) : option error_kind :=
  match e with
  | PyVLXException msg =>
      if decide (msg = "password is none") then Some MissingField
      else if decide (msg = "password is too long") then Some PayloadTooLong
      else None
  | IndexError | ValueError => Some MalformedPayload
  | CodecError k => Some k
  | _ => None
  end.

(** Errors of the same kind; outside the spec's kinds, the same error. *)
Definition same_kind (e1 e2 : exn) : Prop :=
  spec_error e1 = spec_error e2 ∧ (spec_error e1 = None → e1 = e2).

#[export] Instance result_equiv {A} : Equiv (result A) := λ r1 r2,
  match r1, r2 with
  | Ok a, Ok b => a = b
  | Err e1, Err e2 => same_kind e1 e2
  | _, _ => False
  end.

#[export] Instance same_kind_equivalence : Equivalence same_kind.
Proof.
  unfold same_kind. split.
  - done.
  - intros e1 e2 [H1 H2]. split; [done|]. intros Hn. symmetry. apply H2. congruence.
  - intros e1 e2 e3 [H1 H2] [H3 H4]. split; [congruence|].
    intros Hn. rewrite (H2 Hn). apply H4. congruence.
Qed.

#[export] Instance result_equivalence {A} : Equivalence (≡@{result A}).
Proof.
  split.
  - intros [a|e]; cbn; [done | reflexivity].
  - intros [a|e] [b|e']; cbn; try done; intros H; by symmetry.
  - intros [a|e] [b|e'] [c|e'']; cbn; try done; [congruence|]. intros H1 H2. by etrans.
Qed.

#[export] Instance result_bind_proper {A B} :
  Proper (pointwise_relation A (≡@{result B}) ==> (≡) ==> (≡)) (mbind (M := result)).
Proof.
  intros f g Hfg [a|e] [b|e']; cbn; try done; intros ->; apply Hfg.
Qed.

#[export] Instance result_fmap_proper {A B} (f : A → B) :
  Proper ((≡) ==> (≡)) (fmap (M := result) f).
Proof. intros [a|e] [b|e']; cbn; try done; by intros ->. Qed.

Lemma Ok_equiv {A} (a b : A) : Ok a ≡ Ok b ↔ a = b.
Proof. done. Qed.

Lemma Err_equiv {A} (e1 e2 : exn) : (Err e1 : result A) ≡ Err e2 ↔ same_kind e1 e2.
Proof. done. Qed.

Lemma same_kind_spec (e1 e2 : exn) (k : error_kind) :
  spec_error e1 = Some k → spec_error e2 = Some k → same_kind e1 e2.
Proof. unfold same_kind. intros -> ->. split; [done | discriminate]. Qed.

End ErrorKinds.
