(* ===== verification/Utf8.v ===== *)
(** * The strict UTF-8 codec of CPython

    [str.encode('utf-8')] and [bytes.decode('utf-8')] as CPython implements
    them (Objects/stringlib/codecs.h): the encoder writes one to four bytes
    per code point with [|], [>>] and [&], and raises [UnicodeEncodeError] on
    a lone surrogate; the decoder recombines with shifts and additions and
    rejects every ill-formed sequence (stray continuation bytes, the lead
    bytes 0xC0, 0xC1 and 0xF5..0xFF, overlong forms, encoded surrogates,
    code points above 0x10FFFF, truncated sequences).

    The theorems: every encoded byte is a byte; the encoding of a non-NUL
    character has no zero byte; decoding inverts encoding and encoding
    inverts decoding. *)

From stdpp Require Import base list decidable.
From Stdlib Require Import ZArith Lia.
From S2P Require Import Prelude.
Open Scope Z_scope.

Module Utf8.

(** ** Code points *)

Definition is_surrogate (c : Z) : bool := (0xD800 <=? c) && (c <=? 0xDFFF).

(** A character of a Python [str]. *)
Definition cp_ok (c : Z) : Prop := 0 ≤ c ≤ 0x10FFFF.

#[export] Instance cp_ok_dec c : Decision (cp_ok c).
Proof. unfold cp_ok. apply _. Defined.

(** A character the encoder accepts: not a surrogate. *)
Definition scalar_ok (c : Z) : Prop := cp_ok c ∧ is_surrogate c = false.

#[export] Instance scalar_ok_dec c : Decision (scalar_ok c).
Proof. unfold scalar_ok, cp_ok. apply _. Defined.

(** ** Encoder *)

(** [0x80 | (x & 0x3f)]: a continuation byte carrying six bits of [x]. *)
Definition cont (x : Z) : Z := Z.lor 0x80 (Z.land x 0x3F).

Definition encode_cp (c : Z) : option bytes :=
  if c <? 0x80 then Some [c]
  else if c <? 0x800 then Some [Z.lor 0xC0 (Z.shiftr c 6); cont c]
  else if c <? 0x10000 then
    if is_surrogate c then None
    else Some [Z.lor 0xE0 (Z.shiftr c 12); cont (Z.shiftr c 6); cont c]
  else Some [Z.lor 0xF0 (Z.shiftr c 18); cont (Z.shiftr c 12);
             cont (Z.shiftr c 6); cont c].

(** [s.encode('utf-8')]: [None] is the [UnicodeEncodeError]. *)
Fixpoint encode (s : pystr) : option bytes :=
  match s with
  | [] => Some []
  | c :: s' =>
      b ← encode_cp c;
      r ← encode s';
      Some (b ++ r)
  end.

(** ** Decoder *)

Definition in_range (lo hi b : Z) : bool := (lo <=? b) && (b <=? hi).
Definition is_cont (b : Z) : bool := in_range 0x80 0xBF b.

(** The range of the second byte of a three-byte sequence: no overlong form
    after 0xE0, no surrogate after 0xED. *)
Definition second3_ok (b0 b1 : Z) : bool :=
  if b0 =? 0xE0 then in_range 0xA0 0xBF b1
  else if b0 =? 0xED then in_range 0x80 0x9F b1
  else is_cont b1.

(** Of a four-byte sequence: no overlong form after 0xF0, nothing above
    0x10FFFF after 0xF4. *)
Definition second4_ok (b0 b1 : Z) : bool :=
  if b0 =? 0xF0 then in_range 0x90 0xBF b1
  else if b0 =? 0xF4 then in_range 0x80 0x8F b1
  else is_cont b1.

Definition dec2 (b0 b1 : Z) : Z :=
  Z.shiftl b0 6 + b1 - (Z.shiftl 0xC0 6 + 0x80).
Definition dec3 (b0 b1 b2 : Z) : Z :=
  Z.shiftl b0 12 + Z.shiftl b1 6 + b2
  - (Z.shiftl 0xE0 12 + Z.shiftl 0x80 6 + 0x80).
Definition dec4 (b0 b1 b2 b3 : Z) : Z :=
  Z.shiftl b0 18 + Z.shiftl b1 12 + Z.shiftl b2 6 + b3
  - (Z.shiftl 0xF0 18 + Z.shiftl 0x80 12 + Z.shiftl 0x80 6 + 0x80).

(** [b.decode('utf-8')]: [None] is the [UnicodeDecodeError]. *)
Fixpoint decode (bs : bytes) : option pystr :=
  match bs with
  | [] => Some []
  | b0 :: r0 =>
      if in_range 0 0x7F b0 then cons b0 <$> decode r0
      else if in_range 0xC2 0xDF b0 then
        match r0 with
        | b1 :: r1 =>
            if is_cont b1 then cons (dec2 b0 b1) <$> decode r1 else None
        | [] => None
        end
      else if in_range 0xE0 0xEF b0 then
        match r0 with
        | b1 :: b2 :: r2 =>
            if second3_ok b0 b1 && is_cont b2
            then cons (dec3 b0 b1 b2) <$> decode r2 else None
        | _ => None
        end
      else if in_range 0xF0 0xF4 b0 then
        match r0 with
        | b1 :: b2 :: b3 :: r3 =>
            if second4_ok b0 b1 && is_cont b2 && is_cont b3
            then cons (dec4 b0 b1 b2 b3) <$> decode r3 else None
        | _ => None
        end
      else None
  end.

(** ** The encoder as arithmetic *)

(** The encoder written with division and remainder: the reference the
    bit-level routine is compared with. *)
Definition encode_cp_ref (c : Z) : option bytes :=
  if c <? 0x80 then Some [c]
  else if c <? 0x800 then Some [0xC0 + c / 64; 0x80 + c mod 64]
  else if c <? 0x10000 then
    if is_surrogate c then None
    else Some [0xE0 + c / 4096; 0x80 + (c / 64) mod 64; 0x80 + c mod 64]
  else Some [0xF0 + c / 262144; 0x80 + (c / 4096) mod 64;
             0x80 + (c / 64) mod 64; 0x80 + c mod 64].

(** ** Lemmas on bits *)

Lemma lor_disjoint_add (a x k : Z) :
  0 ≤ k → Z.land a (Z.ones k) = 0 → 0 ≤ x < 2 ^ k → Z.lor a x = a + x.
Proof.
  intros Hk Ha Hx. symmetry. apply Z.add_nocarry_lor.
  rewrite <- (Z.mod_small x (2 ^ k)) by lia. rewrite <- Z.land_ones by lia.
  by rewrite (Z.land_comm x), Z.land_assoc, Ha, Z.land_0_l.
Qed.

Lemma land_63 (x : Z) : Z.land x 0x3F = x mod 64.
Proof. change 0x3F with (Z.ones 6). by rewrite Z.land_ones. Qed.

Lemma cont_eq (x : Z) : cont x = 0x80 + x mod 64.
Proof.
  unfold cont. rewrite land_63.
  apply (lor_disjoint_add _ _ 6); [lia | reflexivity | ].
  pose proof (Z.mod_pos_bound x 64). simpl. lia.
Qed.

Lemma is_surrogate_false c : is_surrogate c = false ↔ c < 0xD800 ∨ 0xDFFF < c.
Proof. unfold is_surrogate. zsimpl; split; (done || lia). Qed.

Lemma is_surrogate_true c : is_surrogate c = true ↔ 0xD800 ≤ c ≤ 0xDFFF.
Proof. unfold is_surrogate. zsimpl; split; (done || lia). Qed.

#[export] Hint Rewrite cont_eq land_63 : pyvlx_rw.

(** Shifts are multiplications and divisions by powers of two. *)
Lemma shiftr_eq (c k : Z) : 0 ≤ k → Z.shiftr c k = c / 2 ^ k.
Proof. intros. by apply Z.shiftr_div_pow2. Qed.

Lemma shiftl_eq (c k : Z) : 0 ≤ k → Z.shiftl c k = c * 2 ^ k.
Proof. intros. by apply Z.shiftl_mul_pow2. Qed.

(** [0xC0 | x], [0xE0 | x], [0xF0 | x] add when [x] fits below the marker. *)
Lemma lead_add (m x k : Z) :
  0 ≤ k → Z.land m (Z.ones k) = 0 → 0 ≤ x < 2 ^ k → Z.lor m x = m + x.
Proof. apply lor_disjoint_add. Qed.

Ltac lead_tac k :=
  rewrite (lead_add _ _ k);
  [ reflexivity | lia | reflexivity
  | cbn [Z.pow Z.pow_pos Pos.iter Z.mul Pos.mul];
    split; [apply Z.div_pos | apply Z.div_lt_upper_bound]; lia ].

(** The bit-level encoder of CPython computes the arithmetic reference on
    every code point of a Python string. *)
Lemma encode_cp_ref_equiv (c : Z) : c ≤ 0x10FFFF → encode_cp c = encode_cp_ref c.
Proof.
  intros Hc. unfold encode_cp, encode_cp_ref.
  rewrite !cont_eq, !shiftr_eq by lia.
  change (2 ^ 6) with 64; change (2 ^ 12) with 4096; change (2 ^ 18) with 262144.
  zsimpl; try destruct (is_surrogate c); try reflexivity.
  all: first [lead_tac 5 | lead_tac 4 | lead_tac 3].
Qed.

(** ** The decoder as arithmetic *)

Lemma dec2_eq b0 b1 : dec2 b0 b1 = (b0 - 0xC0) * 64 + (b1 - 0x80).
Proof. unfold dec2. rewrite !shiftl_eq by lia. simpl. lia. Qed.

Lemma dec3_eq b0 b1 b2 :
  dec3 b0 b1 b2 = (b0 - 0xE0) * 4096 + (b1 - 0x80) * 64 + (b2 - 0x80).
Proof. unfold dec3. rewrite !shiftl_eq by lia. simpl. lia. Qed.

Lemma dec4_eq b0 b1 b2 b3 :
  dec4 b0 b1 b2 b3 =
  (b0 - 0xF0) * 262144 + (b1 - 0x80) * 4096 + (b2 - 0x80) * 64 + (b3 - 0x80).
Proof. unfold dec4. rewrite !shiftl_eq by lia. simpl. lia. Qed.

#[export] Hint Rewrite dec2_eq dec3_eq dec4_eq : pyvlx_rw.

(** Unfold the decoder's guards into comparisons. *)
Ltac unfold_guards :=
  unfold second3_ok, second4_ok, is_cont, in_range in *.

(** Decoding one encoded character in front of any byte string. *)
Lemma decode_encode_cp (c : Z) (b r : bytes) :
  cp_ok c → encode_cp c = Some b → decode (b ++ r) = cons c <$> decode r.
Proof.
  unfold cp_ok. intros Hc.
  rewrite encode_cp_ref_equiv by lia. unfold encode_cp_ref.
  destruct (is_surrogate c) eqn:Hs; [apply is_surrogate_true in Hs
                                    | apply is_surrogate_false in Hs];
  zsimpl; intros [= <-]; cbn [app decode]; unfold_guards;
  autorewrite with pyvlx_rw; zsimpl; repeat f_equal; zlia.
Qed.

Lemma encode_cp_Some (c : Z) (b : bytes) : encode_cp c = Some b → is_surrogate c = false.
Proof.
  unfold encode_cp. destruct (is_surrogate c) eqn:Hs; [|done].
  apply is_surrogate_true in Hs. zsimpl; discriminate.
Qed.

(** The round trip: decoding the encoding of a Python string gives it back. *)
Theorem decode_encode (s : pystr) (b : bytes) :
  Forall cp_ok s → encode s = Some b → decode b = Some s.
Proof.
  intros Hs. revert b. induction Hs as [|c s Hc Hs IH]; intros b He.
  { by injection He as <-. }
  cbn [encode] in He.
  destruct (encode_cp c) as [bc|] eqn:Ec; [|discriminate]; cbn in He.
  destruct (encode s) as [bs|] eqn:Es; [|discriminate]; cbn in He.
  injection He as <-. by rewrite (decode_encode_cp c bc bs), (IH bs).
Qed.

(** The encoder fails exactly on the strings with a surrogate. *)
Theorem encode_Some_iff (s : pystr) :
  is_Some (encode s) ↔ Forall (λ c, is_surrogate c = false) s.
Proof.
  induction s as [|c s IH]; cbn [encode].
  { split; [constructor | eauto]. }
  rewrite Forall_cons_iff. destruct (encode_cp c) as [bc|] eqn:Ec; cbn.
  - pose proof (encode_cp_Some _ _ Ec).
    destruct (encode s); cbn; split; [naive_solver | | naive_solver |].
    + eauto.
    + intros [_ Hs%IH]. by destruct Hs.
  - unfold encode_cp in Ec. split; [intros [? ?]; discriminate|].
    intros [Hc _]. revert Ec. rewrite Hc. zsimpl; discriminate.
Qed.

(** Close one arm of the decoder: the tail decodes by the induction
    hypothesis, and the decoded character re-encodes to the consumed bytes. *)
Ltac decoded_arm IH :=
  match goal with
  | Hd : _ <$> decode ?r = Some _ |- _ =>
      let s' := fresh "s'" in let Hok := fresh "Hok" in let Henc := fresh "Henc" in
      apply fmap_Some in Hd as (s' & Hd & ->);
      destruct (IH r ltac:(unfold ltof; simpl; lia) s' Hd) as [Hok Henc];
      split; [constructor; [split; [unfold cp_ok; zlia | apply is_surrogate_false; zlia] | done] |];
      cbn [encode]; rewrite encode_cp_ref_equiv by zlia; unfold encode_cp_ref;
      rewrite ?(proj2 (is_surrogate_false _)) by zlia;
      zsimpl; rewrite Henc; cbn; repeat f_equal; zlia
  end.

(** The converse round trip: whatever the strict decoder accepts is the
    encoding of the string it returns, and that string has no surrogate. *)
Theorem encode_decode (b : bytes) (s : pystr) :
  decode b = Some s → Forall scalar_ok s ∧ encode s = Some b.
Proof.
  revert s. induction b as [b IH] using (induction_ltof1 _ (@length Z)).
  intros s Hd. destruct b as [|b0 r0].
  { injection Hd as <-. split; [constructor | reflexivity]. }
  cbn [decode] in Hd. unfold_guards. revert Hd. zsimpl; intros Hd; try discriminate Hd.
  all: first [ decoded_arm IH
             | destruct r0 as [|b1 [|b2 [|b3 r3]]]; cbv beta iota in Hd;
               try discriminate Hd; autorewrite with pyvlx_rw in Hd;
               revert Hd; zsimpl; intros Hd; try discriminate Hd; decoded_arm IH ].
Qed.

(** ** Shape of the encoding *)

(** Every byte of a character's encoding is a byte, and only NUL encodes to
    a zero byte: lead bytes of multi-byte forms are at least 0xC0 and
    continuation bytes at least 0x80. *)
Lemma encode_cp_range (c : Z) (b : bytes) :
  cp_ok c → encode_cp c = Some b →
  Forall (λ x, byte_ok x ∧ (x = 0 → c = 0)) b ∧ (1 ≤ length b ≤ 4)%nat.
Proof.
  unfold cp_ok, byte_ok. intros Hc.
  rewrite encode_cp_ref_equiv by lia. unfold encode_cp_ref.
  destruct (is_surrogate c); zsimpl; intros [= <-];
    (split; [repeat constructor; zlia | simpl; lia]).
Qed.

Lemma encode_app (s1 s2 : pystr) :
  encode (s1 ++ s2) = (b1 ← encode s1; b2 ← encode s2; Some (b1 ++ b2)).
Proof.
  induction s1 as [|c s1 IH]; cbn [encode app].
  - by destruct (encode s2).
  - rewrite IH. destruct (encode_cp c), (encode s1), (encode s2); simpl;
      rewrite ?app_assoc; done.
Qed.

Lemma encode_cons (c : Z) (s : pystr) (b : bytes) :
  encode (c :: s) = Some b →
  ∃ bc bs, encode_cp c = Some bc ∧ encode s = Some bs ∧ b = bc ++ bs.
Proof.
  cbn [encode]. destruct (encode_cp c), (encode s); simpl; naive_solver.
Qed.

(** Encoded bytes are bytes, and a string without NUL has no zero byte. *)
Theorem encode_bytes (s : pystr) (b : bytes) :
  Forall cp_ok s → encode s = Some b →
  Forall byte_ok b ∧ (Forall (λ c, c ≠ 0) s → Forall (λ x, x ≠ 0) b).
Proof.
  intros Hs. revert b. induction Hs as [|c s Hc Hs IH]; intros b He.
  { injection He as <-. split; constructor. }
  apply encode_cons in He as (bc & bs & Hc' & Hs' & ->).
  destruct (encode_cp_range c bc Hc Hc') as [Hr _].
  destruct (IH bs Hs') as [IH1 IH2].
  rewrite !Forall_app. split.
  - split; [|done]. eapply Forall_impl; [|exact Hr]. naive_solver.
  - intros [Hc0 Hn]%Forall_cons_iff. split; [|by apply IH2].
    eapply Forall_impl; [|exact Hr]. naive_solver.
Qed.

(** A NUL character encodes to the zero byte: an encoding without zero
    byte comes from a string without NUL. *)
Lemma encode_nonzero_inv (s : pystr) (b : bytes) :
  encode s = Some b → Forall (λ x, x ≠ 0) b → Forall (λ c, c ≠ 0) s.
Proof.
  revert b. induction s as [|c s IH]; intros b He Hb; [constructor|].
  apply encode_cons in He as (bc & bs & Hc & Hs & ->).
  apply Forall_app in Hb as [Hbc Hbs]. constructor; [|by apply (IH bs)].
  intros ->. cbn in Hc. injection Hc as <-. by inversion Hbc.
Qed.

(** One to four bytes per character. *)
Theorem encode_length (s : pystr) (b : bytes) :
  Forall cp_ok s → encode s = Some b →
  (length s ≤ length b ≤ 4 * length s)%nat.
Proof.
  intros Hs. revert b. induction Hs as [|c s Hc Hs IH]; intros b He.
  { injection He as <-. simpl. lia. }
  apply encode_cons in He as (bc & bs & Hc' & Hs' & ->).
  destruct (encode_cp_range c bc Hc Hc') as [_ Hl].
  specialize (IH bs Hs'). rewrite length_app. simpl. lia.
Qed.

End Utf8.
