(* ===== verification/StringHelper.v ===== *)
(** * string_helper: fixed-size byte fields holding a string

    [string_to_bytes] and [bytes_to_string] of pyvlx's string_helper.py.
    That file is not under src/: both are modelled from the spec (section 4.1,
    "ByteCodec"): the string is UTF-8 encoded and zero-padded on the right to
    the field size, an encoding longer than the field is [PayloadTooLong];
    decoding reads up to (not including) the first zero byte.

    The theorems: the field has exactly the requested size and holds bytes;
    [string_to_bytes] succeeds exactly on encodable strings that fit; and
    [bytes_to_string] after [string_to_bytes] returns the string cut at its
    first NUL character. *)

From stdpp Require Import base list decidable.
From Stdlib Require Import ZArith Lia.
From S2P Require Import Prelude Utf8.
Open Scope Z_scope.

Module StringHelper.

(** [string_to_bytes(value, size)]. *)
Definition string_to_bytes (s : pystr) (size : nat) : result bytes :=
  match Utf8.encode s with
  | None => Err UnicodeEncodeError
  | Some enc =>
      if decide (length enc ≤ size)%nat
      then Ok (enc ++ replicate (size - length enc) 0)
      else Err (CodecError PayloadTooLong)
  end.

(** The loop of [bytes_to_string]: the bytes before the first zero byte. *)
Fixpoint until_nul (l : list Z) : list Z :=
  match l with
  | [] => []
  | x :: l' => if x =? 0 then [] else x :: until_nul l'
  end.

(** [bytes_to_string(raw)]. *)
Definition bytes_to_string (raw : bytes) : result pystr :=
  match Utf8.decode (until_nul raw) with
  | Some s => Ok s
  | None => Err UnicodeDecodeError
  end.

(** ** [until_nul] *)

Lemma until_nul_app_nonzero (l r : list Z) :
  Forall (λ x, x ≠ 0) l → until_nul (l ++ r) = l ++ until_nul r.
Proof.
  induction 1 as [|x l Hx _ IH]; [done|]. cbn. rewrite IH.
  destruct (Z.eqb_spec x 0); [lia | done].
Qed.

Lemma until_nul_zeros (l : list Z) (k : nat) :
  until_nul (l ++ replicate k 0) = until_nul l.
Proof.
  induction l as [|x l IH]; cbn.
  - by destruct k.
  - by rewrite IH.
Qed.

Lemma until_nul_nonzero (l : list Z) : Forall (λ x, x ≠ 0) (until_nul l).
Proof.
  induction l as [|x l IH]; cbn; [constructor|].
  destruct (Z.eqb_spec x 0); [constructor | by constructor].
Qed.

Lemma until_nul_prefix (l : list Z) : until_nul l `prefix_of` l.
Proof.
  induction l as [|x l IH]; cbn; [done|].
  destruct (x =? 0); [apply prefix_nil | by apply prefix_cons].
Qed.

#[export] Hint Resolve until_nul_nonzero until_nul_prefix : pyvlx.

(** Cutting at the first NUL commutes with UTF-8 encoding. *)
Lemma encode_until_nul (s : pystr) (b : bytes) :
  Forall Utf8.cp_ok s → Utf8.encode s = Some b →
  Utf8.encode (until_nul s) = Some (until_nul b).
Proof.
  intros Hs. revert b. induction Hs as [|c s Hc Hs IH]; intros b He.
  { by injection He as <-. }
  apply Utf8.encode_cons in He as (bc & bs & Hc' & Hs' & ->).
  cbn [until_nul]. destruct (Z.eqb_spec c 0) as [->|Hc0].
  - injection Hc' as <-. reflexivity.
  - destruct (Utf8.encode_cp_range c bc Hc Hc') as [Hr _].
    rewrite until_nul_app_nonzero.
    + cbn [Utf8.encode]. by rewrite Hc', (IH bs Hs').
    + eapply Forall_impl; [|exact Hr]. naive_solver.
Qed.

(** ** [string_to_bytes] *)

(** The field has exactly [size] bytes, each in [0, 256). *)
Theorem string_to_bytes_size (s : pystr) (size : nat) (b : bytes) :
  Forall Utf8.cp_ok s → string_to_bytes s size = Ok b →
  length b = size ∧ Forall byte_ok b.
Proof.
  intros Hs. unfold string_to_bytes.
  destruct (Utf8.encode s) as [enc|] eqn:He; [|discriminate].
  case_decide; [|discriminate]. intros [= <-].
  rewrite length_app, length_replicate, Forall_app. split; [lia|].
  split; [apply (Utf8.encode_bytes s enc Hs He) | apply Forall_byte_ok_replicate].
Qed.

(** It succeeds exactly when the string encodes and the encoding fits. *)
Theorem string_to_bytes_Ok_iff (s : pystr) (size : nat) :
  (∃ b, string_to_bytes s size = Ok b) ↔
  (∃ enc, Utf8.encode s = Some enc ∧ (length enc ≤ size)%nat).
Proof.
  unfold string_to_bytes. destruct (Utf8.encode s) as [enc|]; [|naive_solver].
  case_decide; naive_solver.
Qed.

(** ** The round trip *)

(** Decoding a field written by [string_to_bytes] gives back the string up
    to its first NUL character: the spec's "equal to p with trailing zero
    bytes removed" holds exactly for strings without NUL. *)
Theorem bytes_to_string_string_to_bytes (s : pystr) (size : nat) (b : bytes) :
  Forall Utf8.cp_ok s → string_to_bytes s size = Ok b →
  bytes_to_string b = Ok (until_nul s).
Proof.
  intros Hs. unfold string_to_bytes.
  destruct (Utf8.encode s) as [enc|] eqn:He; [|discriminate].
  case_decide; [|discriminate]. intros [= <-].
  unfold bytes_to_string. rewrite until_nul_zeros.
  erewrite Utf8.decode_encode; [done| |by apply encode_until_nul].
  eapply Forall_prefix; [exact Hs | apply until_nul_prefix].
Qed.

Lemma until_nul_id (l : list Z) : Forall (λ x, x ≠ 0) l → until_nul l = l.
Proof. intros H. pose proof (until_nul_app_nonzero l [] H) as E. by rewrite !app_nil_r in E. Qed.

(** A decoded field holds no NUL character. *)
Lemma bytes_to_string_nonzero (raw : bytes) (s : pystr) :
  bytes_to_string raw = Ok s → Forall (λ c, c ≠ 0) s.
Proof.
  unfold bytes_to_string. destruct (Utf8.decode (until_nul raw)) as [s'|] eqn:Hd; [|discriminate].
  intros [= <-]. destruct (Utf8.encode_decode _ _ Hd) as [_ He].
  exact (Utf8.encode_nonzero_inv _ _ He (until_nul_nonzero raw)).
Qed.

End StringHelper.
