(* ===== verification/Command.v ===== *)
(** * The command catalogue and the command tag on the wire

    const.py of pyvlx is not under src/: the [Command] enumeration is modelled
    from the spec (sections 3 and 6), restricted to the two members the source
    file uses, with the values the KLF-200 API gives them (0x3000 and 0x3001).
    The tag is the command value in two bytes, most significant first.

    The theorems: the value of a command fits in 16 bits and determines the
    command; the two-byte tag round-trips in both directions. *)

From stdpp Require Import base list decidable countable.
From Stdlib Require Import ZArith Lia.
From S2P Require Import Prelude.
Open Scope Z_scope.

Module Command.

Inductive Command :=
  | GW_PASSWORD_ENTER_REQ
  | GW_PASSWORD_ENTER_CFM.

#[export] Instance Command_eq_dec : EqDecision Command.
Proof. solve_decision. Defined.

(** [command.value]. *)
Definition value (c : Command) : Z :=
  match c with
  | GW_PASSWORD_ENTER_REQ => 0x3000
  | GW_PASSWORD_ENTER_CFM => 0x3001
  end.

Definition all_commands : list Command := [GW_PASSWORD_ENTER_REQ; GW_PASSWORD_ENTER_CFM].

(** The tag bytes of a 16-bit value: [v >> 8] and [v & 0xFF]. *)
Definition tag_to_bytes (v : Z) : bytes := [Z.shiftr v 8; Z.land v 0xFF].

(** The value of two tag bytes: [(hi << 8) | lo]. *)
Definition tag_of_bytes (hi lo : Z) : Z := Z.lor (Z.shiftl hi 8) lo.

(** ** Lemmas *)

Lemma land_255 (v : Z) : Z.land v 0xFF = v mod 256.
Proof. change 0xFF with (Z.ones 8). by rewrite Z.land_ones. Qed.

Lemma tag_of_bytes_eq (hi lo : Z) : byte_ok lo → tag_of_bytes hi lo = hi * 256 + lo.
Proof.
  unfold byte_ok, tag_of_bytes. intros Hlo.
  rewrite Z.shiftl_mul_pow2 by lia. symmetry. apply Z.add_nocarry_lor.
  rewrite <- (Z.mod_small lo 256) by lia. change 256 with (2 ^ 8).
  rewrite <- Z.land_ones by lia.
  rewrite (Z.land_comm lo), Z.land_assoc, Z.land_ones by lia.
  by rewrite Z.mod_mul.
Qed.

Lemma all_commands_complete (c : Command) : c ∈ all_commands.
Proof. destruct c; [left | right; left]. Qed.

(** ** Theorems *)

(** A command's value fits in the two bytes of the tag. *)
Theorem value_bounds (c : Command) : 0 ≤ value c < 65536.
Proof. destruct c; simpl; lia. Qed.

(** Distinct commands have distinct values. *)
Lemma value_inj (c1 c2 : Command) : value c1 = value c2 → c1 = c2.
Proof. destruct c1, c2; simpl; congruence. Qed.

(** The tag bytes are bytes and give back the value. *)
Theorem tag_roundtrip (v : Z) :
  0 ≤ v < 65536 →
  Forall byte_ok (tag_to_bytes v) ∧
  (∀ hi lo, tag_to_bytes v = [hi; lo] → tag_of_bytes hi lo = v).
Proof.
  intros Hv. unfold tag_to_bytes. rewrite Z.shiftr_div_pow2, land_255 by lia.
  change (2 ^ 8) with 256. split.
  - repeat constructor; unfold byte_ok; zlia.
  - intros hi lo [= <- <-]. rewrite tag_of_bytes_eq by (unfold byte_ok; zlia). zlia.
Qed.

(** Any two bytes are the tag of the value they encode. *)
Theorem tag_bytes_roundtrip (hi lo : Z) :
  byte_ok hi → byte_ok lo →
  0 ≤ tag_of_bytes hi lo < 65536 ∧ tag_to_bytes (tag_of_bytes hi lo) = [hi; lo].
Proof.
  unfold byte_ok. intros Hhi Hlo. rewrite tag_of_bytes_eq by (unfold byte_ok; lia).
  unfold tag_to_bytes. rewrite Z.shiftr_div_pow2, land_255 by lia.
  change (2 ^ 8) with 256. split; [lia|]. repeat f_equal; zlia.
Qed.

End Command.
