(* ===== verification/FrameBase.v ===== *)
(** * FrameBase: the contract every frame class implements

    frame.py of pyvlx is not under src/: the base class is modelled from the
    spec (section 4.2) as the typeclass [Frame]: the command tag stored by
    [FrameBase.__init__], [get_payload], [from_payload] (which mutates the
    frame, so it returns the new state) and [__str__].  [FrameLaws] states
    what a frame class promises to its clients (the registry): decoding keeps
    the class's tag and populates the frame, and the payload of a canonical
    frame decodes back to it.

    The lifecycle of section 4.2 is the step relation [lifecycle]: each call
    of an operation is one step; a failed [from_payload] leaves the frame as
    it was, since the source assigns the field only after the decoding call
    returns.  The theorems: along any lifecycle the frame keeps its tag and
    never returns from populated to unpopulated. *)

From stdpp Require Import base list decidable.
From Stdlib Require Import ZArith Lia.
From S2P Require Import Prelude Command.
Open Scope Z_scope.

Module FrameBase.
Import Command.

Class Frame (F : Type) := {
  frame_command : F → Command;
  get_payload : F → result bytes;
  from_payload : bytes → F → result F;
  frame_str : F → result pystr;
  (** the spec's [Populated] state: every required field is set *)
  populated : F → bool
}.

Class FrameLaws (F : Type) `{Frame F} := {
  (** the tag of the frame is the tag of its class *)
  frame_wf : F → Prop;
  (** a frame that survives the wire unchanged *)
  canonical : F → Prop;
  canonical_wf : ∀ f, canonical f → frame_wf f;
  from_payload_wf : ∀ p f f', frame_wf f → from_payload p f = Ok f' →
    frame_wf f' ∧ frame_command f' = frame_command f ∧ populated f' = true;
  get_payload_populated : ∀ f p, get_payload f = Ok p → populated f = true;
  payload_roundtrip : ∀ f g, canonical f → frame_wf g →
    frame_command g = frame_command f →
    ∃ p, get_payload f = Ok p ∧ from_payload p g = Ok f
}.

(** ** The lifecycle *)

Inductive frame_op :=
  | OpGetPayload
  | OpFromPayload (payload : bytes)
  | OpStr.

Section Lifecycle.
Context `{Frame F}.

(** One call on the frame: the new state and the exception raised, if any. *)
Definition frame_step (f : F) (op : frame_op) : F * option exn :=
  match op with
  | OpGetPayload => (f, error_of (get_payload f))
  | OpFromPayload p =>
      match from_payload p f with
      | Ok f' => (f', None)
      | Err e => (f, Some e)
      end
  | OpStr => (f, error_of (frame_str f))
  end.

(** A sequence of calls, with the exception of each. *)
Fixpoint frame_run (f : F) (ops : list frame_op) : F * list (option exn) :=
  match ops with
  | [] => (f, [])
  | op :: ops' =>
      let '(f1, e) := frame_step f op in
      let '(f2, es) := frame_run f1 ops' in
      (f2, e :: es)
  end.

(** The states reachable from [f0] by calls. *)
Inductive lifecycle (f0 : F) : F → Prop :=
  | lc_init : lifecycle f0 f0
  | lc_step f op : lifecycle f0 f → lifecycle f0 (frame_step f op).1.

Lemma frame_run_lifecycle (f0 f : F) (ops : list frame_op) :
  lifecycle f0 f → lifecycle f0 (frame_run f ops).1.
Proof.
  revert f. induction ops as [|op ops IH]; intros f Hf; [done|].
  cbn [frame_run]. destruct (frame_step f op) as [f1 e] eqn:Hs.
  specialize (IH f1). destruct (frame_run f1 ops). apply IH.
  change f1 with (f1, e).1. rewrite <- Hs. by constructor.
Qed.

Context `{!FrameLaws F}.

(** One step keeps a well-formed frame's tag and its populated state. *)
Lemma frame_step_inv (f : F) (op : frame_op) :
  frame_wf f →
  frame_wf (frame_step f op).1 ∧
  frame_command (frame_step f op).1 = frame_command f ∧
  (populated f = true → populated (frame_step f op).1 = true).
Proof.
  intros Hwf. destruct op as [|p|]; cbn; [done| |done].
  destruct (from_payload p f) as [f'|e] eqn:Hp; [|done].
  destruct (from_payload_wf p f f' Hwf Hp) as (? & ? & ?). done.
Qed.

(** Along any lifecycle the frame keeps its class's tag. *)
Theorem lifecycle_command (f0 f : F) :
  frame_wf f0 → lifecycle f0 f → frame_wf f ∧ frame_command f = frame_command f0.
Proof.
  intros H0. induction 1 as [|f op _ [IHwf IHc]]; [done|].
  destruct (frame_step_inv f op IHwf) as (? & -> & _). done.
Qed.

(** No transition leads back from populated to unpopulated. *)
Theorem lifecycle_populated (f0 f : F) :
  frame_wf f0 → populated f0 = true → lifecycle f0 f → populated f = true.
Proof.
  intros Hwf Hp Hl. induction Hl as [|f op Hl IH]; [done|].
  destruct (lifecycle_command f0 f Hwf Hl) as [Hwf' _].
  by apply (frame_step_inv f op Hwf').
Qed.
End Lifecycle.

End FrameBase.
