(* ===== verification/PasswordEnterRequest.v ===== *)
(** * FramePasswordEnterRequest (frame_password_enter.py, lines 9-33)

    The frame holds the command tag set by [FrameBase.__init__] and an
    optional password ([None] is Python's [None]).  [get_payload] raises on a
    missing password and on a password of more than [MAX_SIZE] characters,
    then calls [string_to_bytes]; [from_payload] decodes with
    [bytes_to_string]; [__str__] formats the first two characters.

    The theorems: every branch of [get_payload], errors included; the
    32-byte payload; the round trip of a password through its payload (up to
    the first NUL character); the redaction of [__str__]; and the [Frame]
    instance with its laws. *)

From stdpp Require Import base list decidable strings.
From Stdlib Require Import ZArith Lia.
From S2P Require Import Prelude ErrorKinds Utf8 StringHelper Command FrameBase.
Open Scope Z_scope.

Module Request.
Import ErrorKinds Command StringHelper.
Import (hints) Utf8.

Record FramePasswordEnterRequest := {
  command : Command;
  password : option pystr
}.

Definition MAX_SIZE : nat := 32.

(** [FramePasswordEnterRequest(password=None)]. *)
Definition init (password : option pystr) : FramePasswordEnterRequest :=
  {| command := GW_PASSWORD_ENTER_REQ; password := password |}.

Definition get_payload (self : FramePasswordEnterRequest) : result bytes :=
  match password self with
  | None => Err (PyVLXException "password is none")
  | Some pw =>
      if decide (MAX_SIZE < length pw)%nat
      then Err (PyVLXException "password is too long")
      else string_to_bytes pw MAX_SIZE
  end.

Definition from_payload (payload : bytes) (self : FramePasswordEnterRequest)
    : result FramePasswordEnterRequest :=
  pw ← bytes_to_string payload;
  Ok {| command := command self; password := Some pw |}.

(** [self.password[:2]] raises [TypeError] when the password is [None]. *)
Definition __str__ (self : FramePasswordEnterRequest) : result pystr :=
  match password self with
  | None => Err TypeError
  | Some pw =>
      Ok (str_lit "<FramePasswordEnterRequest password='" ++ py_slice_to pw 2 ++
          str_lit "******'/>")
  end.

(** A password that encodes in the 32-byte field and has no NUL character. *)
Definition password_ok (pw : pystr) : Prop :=
  Forall Utf8.cp_ok pw ∧ Forall (λ c, c ≠ 0) pw ∧
  ∃ enc, Utf8.encode pw = Some enc ∧ (length enc ≤ MAX_SIZE)%nat.

(** ** Lemmas *)

(** A password whose encoding fits passes the character check of line 23:
    it has at most as many characters as bytes. *)
Lemma get_payload_fits (pw : pystr) (enc : bytes) :
  Forall Utf8.cp_ok pw → Utf8.encode pw = Some enc → (length enc ≤ MAX_SIZE)%nat →
  get_payload (init (Some pw)) = string_to_bytes pw MAX_SIZE.
Proof.
  intros Hok He Hl. unfold get_payload. cbn [password init].
  pose proof (Utf8.encode_length pw enc Hok He). by rewrite decide_False by lia.
Qed.

(** A payload returned is the one of [string_to_bytes]. *)
(** [get_payload] raises the missing-password error exactly when the
    password is [None]. *)
Lemma get_payload_missing (self : FramePasswordEnterRequest) :
  (∃ e, get_payload self = Err e ∧ spec_error e = Some MissingField) ↔ password self = None.
Proof.
  unfold get_payload. destruct (password self) as [pw|]; [|split; [done | by eexists]].
  split; [|discriminate]. intros (e & He & Hk). unfold string_to_bytes in He.
  destruct (Utf8.encode pw); repeat case_decide; simplify_eq; vm_compute in Hk; discriminate.
Qed.

Lemma get_payload_Ok (pw : pystr) (b : bytes) :
  get_payload (init (Some pw)) = Ok b → string_to_bytes pw MAX_SIZE = Ok b.
Proof. unfold get_payload. cbn [password init]. by try case_decide. Qed.

Lemma from_payload_string_to_bytes (pw : pystr) (b : bytes) (g : FramePasswordEnterRequest) :
  Forall Utf8.cp_ok pw → string_to_bytes pw MAX_SIZE = Ok b →
  from_payload b g = Ok {| command := command g; password := Some (until_nul pw) |}.
Proof.
  intros Hok Hb. unfold from_payload.
  by rewrite (bytes_to_string_string_to_bytes pw MAX_SIZE b Hok Hb).
Qed.

(** ** The payload *)

(** C5: The payload of a password is its UTF-8 encoding padded with zero bytes
    to 32 bytes, and each byte is in [0, 256). *)
Theorem get_payload_spec (pw : pystr) (b : bytes) :
  Forall Utf8.cp_ok pw → get_payload (init (Some pw)) = Ok b →
  ∃ enc, Utf8.encode pw = Some enc ∧ b = enc ++ replicate (32 - length enc) 0 ∧
         length b = 32%nat ∧ Forall byte_ok b.
Proof.
  intros Hok Hb%get_payload_Ok.
  destruct (string_to_bytes_size pw MAX_SIZE b Hok Hb) as [Hl Hr].
  unfold string_to_bytes in Hb. destruct (Utf8.encode pw) as [enc|]; [|discriminate].
  case_decide; [|discriminate]. injection Hb as <-. eauto.
Qed.

(** C6: [get_payload] succeeds exactly on passwords whose encoding fits in the
    32-byte field: the character check of line 23 never rejects more. *)
Theorem get_payload_Ok_iff (pw : pystr) :
  Forall Utf8.cp_ok pw →
  (∃ b, get_payload (init (Some pw)) = Ok b) ↔
  (∃ enc, Utf8.encode pw = Some enc ∧ (length enc ≤ 32)%nat).
Proof.
  intros Hok. split.
  - intros [b Hb%get_payload_Ok]. apply string_to_bytes_Ok_iff. eauto.
  - intros (enc & He & Hl). rewrite (get_payload_fits pw enc) by done.
    apply string_to_bytes_Ok_iff. eauto.
Qed.

(** C3: A password whose encoding exceeds 32 bytes is rejected: by the
    character check of line 23 when it has more than 32 characters, by
    [string_to_bytes] otherwise. *)
Theorem get_payload_too_long (pw : pystr) (enc : bytes) :
  Utf8.encode pw = Some enc → (32 < length enc)%nat →
  get_payload (init (Some pw)) =
    Err (if decide (32 < length pw)%nat then PyVLXException "password is too long"
         else CodecError PayloadTooLong).
Proof.
  intros He Hl. unfold get_payload, MAX_SIZE. cbn [password init].
  case_decide; [done|]. unfold string_to_bytes. rewrite He.
  by rewrite decide_False by lia.
Qed.

(** C1: The round trip: the payload of a password decodes to the password cut
    at its first NUL character, into any request frame. *)
Theorem get_payload_from_payload (pw : pystr) (b : bytes) (g : FramePasswordEnterRequest) :
  Forall Utf8.cp_ok pw → get_payload (init (Some pw)) = Ok b →
  from_payload b g = Ok {| command := command g; password := Some (until_nul pw) |}.
Proof.
  intros Hok Hb%get_payload_Ok. by apply from_payload_string_to_bytes.
Qed.


(** C30: Whatever follows the first zero byte of a payload is ignored. *)
Theorem from_payload_after_nul (b junk : bytes) (g : FramePasswordEnterRequest) :
  Forall (λ x, x ≠ 0) b → from_payload (b ++ 0 :: junk) g = from_payload b g.
Proof.
  intros Hb. unfold from_payload, bytes_to_string.
  by rewrite until_nul_app_nonzero, app_nil_r, until_nul_id by done.
Qed.

(** ** [__str__] *)

(** C27: [__str__] shows the first two characters of the password only: two
    passwords that agree there give the same text. *)
Theorem __str___redacted (self : FramePasswordEnterRequest) (p q : pystr) :
  take 2 p = take 2 q →
  __str__ {| command := command self; password := Some p |} =
  __str__ {| command := command self; password := Some q |}.
Proof. intros Hpq. unfold __str__, py_slice_to. cbn. by rewrite Hpq. Qed.

(** C26: [__str__] raises [TypeError] exactly on a frame without password. *)
Theorem __str___TypeError (self : FramePasswordEnterRequest) :
  __str__ self = Err TypeError ↔ password self = None.
Proof. unfold __str__. destruct (password self); naive_solver. Qed.

(** C19: The errors of the request's [get_payload] are the spec's [MissingField],
    raised exactly when the password is [None], and [PayloadTooLong], or a
    [UnicodeEncodeError] on a lone surrogate, which the spec does not list. *)
Theorem request_get_payload_errors (self : FramePasswordEnterRequest) (e : exn) :
  get_payload self = Err e →
  (spec_error e = Some MissingField ↔ password self = None) ∧
  (spec_error e = Some MissingField ∨ spec_error e = Some PayloadTooLong ∨
   e = UnicodeEncodeError).
Proof.
  unfold get_payload. destruct (password self) as [pw|].
  - case_decide; [intros [= <-]; cbn; naive_solver|].
    unfold StringHelper.string_to_bytes. destruct (Utf8.encode pw); [|intros [= <-]; cbn; naive_solver].
    case_decide; [discriminate|]. intros [= <-]. cbn. naive_solver.
  - intros [= <-]. cbn. naive_solver.
Qed.

(** C14: Every error of [get_payload], in the order of its guards: the missing
    password (line 21), then the character count (line 23), then the
    encoding and the field size inside [string_to_bytes] (line 25).  A
    string of more than 32 characters is reported too long even when it
    cannot be encoded. *)
Theorem get_payload_Err_iff (self : FramePasswordEnterRequest) (e : exn) :
  get_payload self = Err e ↔
  (password self = None ∧ e = PyVLXException "password is none") ∨
  (∃ pw, password self = Some pw ∧ (32 < length pw)%nat ∧
         e = PyVLXException "password is too long") ∨
  (∃ pw, password self = Some pw ∧ (length pw ≤ 32)%nat ∧ Utf8.encode pw = None ∧
         e = UnicodeEncodeError) ∨
  (∃ pw enc, password self = Some pw ∧ (length pw ≤ 32)%nat ∧ Utf8.encode pw = Some enc ∧
             (32 < length enc)%nat ∧ e = CodecError PayloadTooLong).
Proof.
  unfold get_payload, MAX_SIZE, string_to_bytes.
  destruct (password self) as [pw|]; [|naive_solver].
  case_decide; [naive_solver lia|].
  destruct (Utf8.encode pw) as [enc|] eqn:He; [case_decide|]; naive_solver lia.
Qed.

(** C13: The decoded password is exactly the string without NUL character whose
    UTF-8 encoding is the payload up to its first zero byte. *)
Theorem from_payload_spec (p : bytes) (g g' : FramePasswordEnterRequest) :
  from_payload p g = Ok g' ↔
  ∃ s, g' = {| command := command g; password := Some s |} ∧
       Forall Utf8.scalar_ok s ∧ Forall (λ c, c ≠ 0) s ∧ Utf8.encode s = Some (until_nul p).
Proof.
  unfold from_payload. split.
  - destruct (bytes_to_string p) as [s|] eqn:Hb; cbn; [intros [= <-]|discriminate].
    exists s. split; [done|]. split_and!; [| by eapply bytes_to_string_nonzero |].
    all: unfold bytes_to_string in Hb; destruct (Utf8.decode _) eqn:Hd; [|discriminate].
    all: injection Hb as <-; by apply (Utf8.encode_decode _ _ Hd).
  - intros (s & -> & Hs & Hn & He). unfold bytes_to_string.
    rewrite (Utf8.decode_encode s (until_nul p)); [done| |done].
    eapply Forall_impl; [exact Hs|]. by intros c [].
Qed.

(** ** The [Frame] instance *)

#[export] Instance request_frame : FrameBase.Frame FramePasswordEnterRequest := {|
  FrameBase.frame_command := command;
  FrameBase.get_payload := get_payload;
  FrameBase.from_payload := from_payload;
  FrameBase.frame_str := __str__;
  FrameBase.populated := λ self, bool_decide (is_Some (password self))
|}.

Lemma init_eta (f : FramePasswordEnterRequest) :
  command f = GW_PASSWORD_ENTER_REQ → f = init (password f).
Proof. destruct f; simpl; by intros ->. Qed.

Lemma request_payload_roundtrip (f g : FramePasswordEnterRequest) :
  command f = GW_PASSWORD_ENTER_REQ →
  (∃ pw, password f = Some pw ∧ password_ok pw) →
  command g = command f →
  ∃ p, get_payload f = Ok p ∧ from_payload p g = Ok f.
Proof.
  intros Hc (pw & Hpw & Hok & Hnul & enc & He & Hl) Hg.
  rewrite (init_eta f Hc), Hpw, (get_payload_fits pw enc Hok He Hl).
  destruct (proj2 (string_to_bytes_Ok_iff pw MAX_SIZE) (ex_intro _ enc (conj He Hl))) as [p Hp].
  exists p. split; [done|]. rewrite (from_payload_string_to_bytes pw p g Hok Hp).
  by rewrite until_nul_id, Hg, Hc.
Qed.

Definition request_wf (f : FramePasswordEnterRequest) : Prop :=
  command f = GW_PASSWORD_ENTER_REQ.

Definition request_canonical (f : FramePasswordEnterRequest) : Prop :=
  request_wf f ∧ ∃ pw, password f = Some pw ∧ password_ok pw.

Lemma request_from_payload_wf (p : bytes) (f f' : FramePasswordEnterRequest) :
  request_wf f → from_payload p f = Ok f' →
  request_wf f' ∧ command f' = command f ∧ bool_decide (is_Some (password f')) = true.
Proof. unfold from_payload. intros Hf Hp. result_inv. simpl. eauto. Qed.

Lemma request_get_payload_populated (f : FramePasswordEnterRequest) (p : bytes) :
  get_payload f = Ok p → bool_decide (is_Some (password f)) = true.
Proof. unfold get_payload. destruct (password f); [eauto | discriminate]. Qed.

#[export] Instance request_frame_laws : FrameBase.FrameLaws FramePasswordEnterRequest := {|
  FrameBase.frame_wf := request_wf;
  FrameBase.canonical := request_canonical;
  FrameBase.canonical_wf f H := proj1 H;
  FrameBase.from_payload_wf := request_from_payload_wf;
  FrameBase.get_payload_populated := request_get_payload_populated;
  FrameBase.payload_roundtrip f g H Hg Hc := request_payload_roundtrip f g (proj1 H) (proj2 H) Hc
|}.

(** The password of the spec's scenarios (section 8). *)
Definition hunter2 : pystr := str_lit "hunter2".

(** ** Witnesses *)

Lemma Forall_cp_ok_hunter2 : Forall Utf8.cp_ok hunter2.
Proof. decide_concrete. Qed.

Lemma get_payload_from_payload_witness :
  from_payload (str_lit "hunter2" ++ replicate 25 0) (init None) =
    Ok {| command := GW_PASSWORD_ENTER_REQ; password := Some hunter2 |}.
Proof.
  apply (get_payload_from_payload hunter2 _ (init None)).
  - decide_concrete.
  - vm_compute. reflexivity.
Defined.

(** Thirty-two characters "é" pass the check of line 23 and are rejected by
    [string_to_bytes]: their encoding has 64 bytes. *)
Lemma get_payload_too_long_witness :
  get_payload (init (Some (replicate 32 0xE9))) = Err (CodecError PayloadTooLong).
Proof.
  apply (get_payload_too_long (replicate 32 0xE9) (concat (replicate 32 [0xC3; 0xA9]))).
  - vm_compute. reflexivity.
  - vm_compute. lia.
Defined.

Lemma get_payload_spec_witness :
  ∃ enc, Utf8.encode hunter2 = Some enc ∧
    str_lit "hunter2" ++ replicate 25 0 = enc ++ replicate (32 - length enc) 0 ∧
    length (str_lit "hunter2" ++ replicate 25 0) = 32%nat ∧
    Forall byte_ok (str_lit "hunter2" ++ replicate 25 0).
Proof.
  apply (get_payload_spec hunter2).
  - decide_concrete.
  - vm_compute. reflexivity.
Defined.

Lemma get_payload_Ok_iff_witness :
  (∃ b, get_payload (init (Some hunter2)) = Ok b) ↔
  (∃ enc, Utf8.encode hunter2 = Some enc ∧ (length enc ≤ 32)%nat).
Proof.
  apply (get_payload_Ok_iff hunter2). decide_concrete.
Defined.

Lemma from_payload_after_nul_witness :
  from_payload ([0x61] ++ 0 :: [0xFF]) (init None) = from_payload [0x61] (init None).
Proof. apply from_payload_after_nul. decide_concrete. Defined.

Lemma __str___redacted_witness :
  __str__ {| command := GW_PASSWORD_ENTER_REQ; password := Some hunter2 |} =
  __str__ {| command := GW_PASSWORD_ENTER_REQ; password := Some (str_lit "hunter3") |}.
Proof.
  apply (__str___redacted (init None) hunter2 (str_lit "hunter3")). vm_compute. reflexivity.
Defined.

Lemma request_get_payload_errors_witness :
  (spec_error (PyVLXException "password is none") = Some MissingField ↔
   password (init None) = None) ∧
  (spec_error (PyVLXException "password is none") = Some MissingField ∨
   spec_error (PyVLXException "password is none") = Some PayloadTooLong ∨
   PyVLXException "password is none" = UnicodeEncodeError).
Proof. apply request_get_payload_errors. vm_compute. reflexivity. Defined.

End Request.
