(* ===== verification/PasswordEnterConfirmation.v ===== *)
(** * FramePasswordEnterConfirmation (frame_password_enter.py, lines 36-61)

    [PasswortEnterConfirmationStatus] is the Enum of the source (the German
    spelling is the source's) with its values; [of_value] is the Enum call
    [PasswortEnterConfirmationStatus(v)], which raises [ValueError] on any
    other value.  The frame holds the command tag and a status, SUCCESSFUL by
    default.  [get_payload] is [bytes([self.status.value])]; [from_payload]
    reads [payload[0]] ([IndexError] on an empty payload) and converts it.

    The theorems: the one-byte payload; the round trip of every status; the
    errors of [from_payload] on every input; and the [Frame] instance. *)

From stdpp Require Import base list decidable strings.
From Stdlib Require Import ZArith Lia.
From S2P Require Import Prelude Command FrameBase.
Open Scope Z_scope.

Module Confirmation.
Import Command.

Inductive PasswortEnterConfirmationStatus :=
  | SUCCESSFUL
  | FAILED.

#[export] Instance status_eq_dec : EqDecision PasswortEnterConfirmationStatus.
Proof. solve_decision. Defined.

(** [status.value]. *)
Definition value (s : PasswortEnterConfirmationStatus) : Z :=
  match s with
  | SUCCESSFUL => 0
  | FAILED => 1
  end.

(** [PasswortEnterConfirmationStatus(v)]. *)
Definition of_value (v : Z) : result PasswortEnterConfirmationStatus :=
  if v =? 0 then Ok SUCCESSFUL
  else if v =? 1 then Ok FAILED
  else Err ValueError.

(** [str(status)] of an Enum member: the class name, a dot, the member. *)
Definition status_str (s : PasswortEnterConfirmationStatus) : pystr :=
  match s with
  | SUCCESSFUL => str_lit "PasswortEnterConfirmationStatus.SUCCESSFUL"
  | FAILED => str_lit "PasswortEnterConfirmationStatus.FAILED"
  end.

Record FramePasswordEnterConfirmation := {
  command : Command;
  status : PasswortEnterConfirmationStatus
}.

(** [FramePasswordEnterConfirmation(status=SUCCESSFUL)]. *)
Definition init (status : PasswortEnterConfirmationStatus) : FramePasswordEnterConfirmation :=
  {| command := GW_PASSWORD_ENTER_CFM; status := status |}.

Definition get_payload (self : FramePasswordEnterConfirmation) : result bytes :=
  py_bytes [value (status self)].

Definition from_payload (payload : bytes) (self : FramePasswordEnterConfirmation)
    : result FramePasswordEnterConfirmation :=
  b ← py_getitem payload 0;
  s ← of_value b;
  Ok {| command := command self; status := s |}.

Definition __str__ (self : FramePasswordEnterConfirmation) : result pystr :=
  Ok (str_lit "<FramePasswordEnterConfirmation status='" ++ status_str (status self) ++
      str_lit "'/>").

(** ** The Enum *)

Lemma status_of_value_value (s : PasswortEnterConfirmationStatus) : of_value (value s) = Ok s.
Proof. by destruct s. Qed.

Lemma status_value_of_value (v : Z) (s : PasswortEnterConfirmationStatus) :
  of_value v = Ok s → value s = v.
Proof. unfold of_value. zsimpl; intros [= <-]; simpl; lia. Qed.

Lemma status_of_value_Err (v : Z) : (∃ e, of_value v = Err e) ↔ v ≠ 0 ∧ v ≠ 1.
Proof. unfold of_value. zsimpl; naive_solver. Qed.

(** ** The payload *)

Lemma get_payload_value (self : FramePasswordEnterConfirmation) :
  get_payload self = Ok [value (status self)].
Proof.
  unfold get_payload. destruct (status self); cbn.
  all: apply py_bytes_ok; repeat constructor; unfold byte_ok; lia.
Qed.

(** A failing [from_payload] raises [IndexError] or [ValueError]. *)
Lemma from_payload_Err_kind (p : bytes) (g : FramePasswordEnterConfirmation) (e : exn) :
  from_payload p g = Err e → e = IndexError ∨ e = ValueError.
Proof.
  unfold from_payload, py_getitem. destruct p as [|b rest]; cbn; [intros [= <-]; auto|].
  unfold of_value. zsimpl; intros [= <-]; auto.
Qed.

(** C22: [get_payload] never raises: the payload is the one byte [0] or [1]. *)
Theorem get_payload_byte (self : FramePasswordEnterConfirmation) :
  get_payload self = Ok [value (status self)] ∧ (value (status self) = 0 ∨ value (status self) = 1).
Proof.
  split; [apply get_payload_value | destruct (status self); cbn; lia].
Qed.

(** C2: The round trip: the payload of every status decodes to that status,
    into any confirmation frame. *)
Theorem status_roundtrip (s : PasswortEnterConfirmationStatus) (g : FramePasswordEnterConfirmation) :
  ∃ p, get_payload (init s) = Ok p ∧
       from_payload p g = Ok {| command := command g; status := s |}.
Proof.
  exists [value s]. split; [apply get_payload_value|].
  unfold from_payload. simpl. by rewrite status_of_value_value.
Qed.

(** C21: [from_payload] succeeds exactly on a payload whose first byte is a status
    value; the bytes after the first are ignored. *)
Theorem from_payload_Ok (p : bytes) (g g' : FramePasswordEnterConfirmation) :
  from_payload p g = Ok g' ↔
  ∃ s rest, p = value s :: rest ∧ g' = {| command := command g; status := s |}.
Proof.
  unfold from_payload, py_getitem. split.
  - destruct p as [|b rest]; simpl; [discriminate|]. intros H. result_inv.
    apply status_value_of_value in Ha. subst. eauto.
  - intros (s & rest & -> & ->). simpl. by rewrite status_of_value_value.
Qed.

(** C4: Its errors: [IndexError] on the empty payload, [ValueError] when the
    first byte is neither 0 nor 1; the spec names both [MalformedPayload]. *)
Theorem from_payload_Err (p : bytes) (g : FramePasswordEnterConfirmation) (e : exn) :
  from_payload p g = Err e ↔
  (p = [] ∧ e = IndexError) ∨ (∃ b rest, p = b :: rest ∧ b ≠ 0 ∧ b ≠ 1 ∧ e = ValueError).
Proof.
  unfold from_payload, py_getitem. destruct p as [|b rest]; simpl; [naive_solver|].
  unfold of_value. zsimpl; naive_solver.
Qed.

(** ** The [Frame] instance *)

#[export] Instance confirmation_frame : FrameBase.Frame FramePasswordEnterConfirmation := {|
  FrameBase.frame_command := command;
  FrameBase.get_payload := get_payload;
  FrameBase.from_payload := from_payload;
  FrameBase.frame_str := __str__;
  FrameBase.populated _ := true
|}.

Definition confirmation_wf (f : FramePasswordEnterConfirmation) : Prop :=
  command f = GW_PASSWORD_ENTER_CFM.

Lemma confirmation_from_payload_wf (p : bytes) (f f' : FramePasswordEnterConfirmation) :
  confirmation_wf f → from_payload p f = Ok f' →
  confirmation_wf f' ∧ command f' = command f ∧ true = true.
Proof. unfold from_payload. intros Hf Hp. result_inv. done. Qed.

Lemma confirmation_payload_roundtrip (f g : FramePasswordEnterConfirmation) :
  confirmation_wf f → command g = command f →
  ∃ p, get_payload f = Ok p ∧ from_payload p g = Ok f.
Proof.
  intros Hf Hg. exists [value (status f)]. split; [apply get_payload_value|].
  unfold from_payload. cbn. rewrite status_of_value_value.
  destruct f as [c s]. cbn in *. by rewrite Hg.
Qed.

#[export] Instance confirmation_frame_laws :
    FrameBase.FrameLaws FramePasswordEnterConfirmation := {|
  FrameBase.frame_wf := confirmation_wf;
  FrameBase.canonical := confirmation_wf;
  FrameBase.canonical_wf f H := H;
  FrameBase.from_payload_wf := confirmation_from_payload_wf;
  FrameBase.get_payload_populated _ _ _ := eq_refl;
  FrameBase.payload_roundtrip f g H _ Hc := confirmation_payload_roundtrip f g H Hc
|}.

End Confirmation.
