(* ===== verification/FrameRegistry.v ===== *)
(** * The frame registry and the frame on the wire

    frame_creation.py of pyvlx is not under src/: the registry is modelled
    from the spec (section 4.5) as a finite map from command value to the
    prototype frame of the class that decodes it.  [build_registry] raises
    [DuplicateCommand] when two prototypes share a command; [decode] raises
    [UnknownCommand] on an unregistered tag and otherwise calls
    [from_payload] on the prototype.  A frame on the wire (section 6) is its
    two tag bytes followed by its payload.

    Everything here is generic over a [Frame] with [FrameLaws]: the client
    theorems are proved against the interface of FrameBase.  They show that
    the registry builds exactly from prototypes with distinct commands, that
    lookup finds the prototype of a command, that decoding keeps the command
    and populates the frame, and that every canonical frame of a registered
    class survives the round trip through bytes. *)

From stdpp Require Import base list decidable gmap.
From Stdlib Require Import ZArith Lia.
From S2P Require Import Prelude Command FrameBase.
Open Scope Z_scope.

Module FrameRegistry.
Import Command FrameBase.

Section Registry.
Context `{Frame F}.

Definition key (f : F) : Z := value (frame_command f).

Fixpoint build_registry (protos : list F) : result (gmap Z F) :=
  match protos with
  | [] => Ok ∅
  | f :: rest =>
      reg ← build_registry rest;
      match reg !! key f with
      | Some _ => Err (CodecError DuplicateCommand)
      | None => Ok (<[key f := f]> reg)
      end
  end.

Definition decode (reg : gmap Z F) (tag : Z) (payload : bytes) : result F :=
  match reg !! tag with
  | None => Err (CodecError UnknownCommand)
  | Some proto => from_payload payload proto
  end.

Definition frame_to_bytes (f : F) : result bytes :=
  p ← get_payload f;
  Ok (tag_to_bytes (key f) ++ p).

Definition frame_of_bytes (reg : gmap Z F) (raw : bytes) : result F :=
  match raw with
  | hi :: lo :: payload => decode reg (tag_of_bytes hi lo) payload
  | _ => Err (CodecError MalformedPayload)
  end.

(** Reading a frame whose first two bytes are the tag of [v]. *)
Lemma frame_of_bytes_tag (reg : gmap Z F) (v : Z) (payload : bytes) :
  0 ≤ v < 65536 → frame_of_bytes reg (tag_to_bytes v ++ payload) = decode reg v payload.
Proof.
  intros Hv. destruct (tag_roundtrip v Hv) as [_ Htag].
  unfold tag_to_bytes at 1. cbn [app frame_of_bytes].
  by rewrite (Htag (Z.shiftr v 8) (Z.land v 0xFF) eq_refl).
Qed.

(** ** Building the registry *)

Lemma build_registry_lookup (protos : list F) (reg : gmap Z F) :
  build_registry protos = Ok reg →
  ∀ k f, reg !! k = Some f ↔ f ∈ protos ∧ key f = k.
Proof.
  revert reg. induction protos as [|g rest IH]; intros reg Hb k f; cbn in Hb.
  - injection Hb as <-. rewrite lookup_empty. split; [discriminate|].
    intros [Hin _]. inversion Hin.
  - result_inv. destruct (a !! key g) as [g'|] eqn:Hg; [discriminate|].
    injection Hb as <-. rewrite lookup_insert, elem_of_cons.
    case_decide as Hk; subst.
    + split; [intros [= <-]; auto|].
      intros [[->|Hin] Hkf]; [done|].
      assert (a !! key g = Some f) by (apply (IH a Ha); auto). congruence.
    + rewrite (IH a Ha). naive_solver.
Qed.

Lemma build_registry_fresh (protos : list F) (reg : gmap Z F) (k : Z) :
  build_registry protos = Ok reg → reg !! k = None ↔ k ∉ key <$> protos.
Proof.
  intros Hb. rewrite eq_None_not_Some, list_elem_of_fmap.
  split.
  - intros Hn (f & -> & Hin). apply Hn. exists f. by apply (build_registry_lookup protos reg Hb).
  - intros Hn [f Hf]. apply (build_registry_lookup protos reg Hb) in Hf as [Hin <-]. eauto.
Qed.

(** The registry builds exactly when no two prototypes share a command,
    and otherwise the error is [DuplicateCommand]. *)
Theorem build_registry_Ok_iff (protos : list F) :
  (∃ reg, build_registry protos = Ok reg) ↔ NoDup (key <$> protos).
Proof.
  induction protos as [|g rest IH]; cbn.
  { split; [constructor | eauto]. }
  rewrite NoDup_cons, <- IH.
  destruct (build_registry rest) as [reg|e] eqn:Hb; cbn; [|naive_solver].
  destruct (reg !! key g) eqn:Hg.
  - split; [intros [? ?]; discriminate|]. intros [Hn _].
    apply (build_registry_fresh rest reg (key g) Hb) in Hn. congruence.
  - apply (build_registry_fresh rest reg (key g) Hb) in Hg. naive_solver.
Qed.

Theorem build_registry_Err (protos : list F) (e : exn) :
  build_registry protos = Err e → e = CodecError DuplicateCommand.
Proof.
  induction protos as [|g rest IH]; cbn; [discriminate|].
  destruct (build_registry rest); cbn; [|auto].
  destruct (_ !! key g); [congruence | discriminate].
Qed.

(** ** Decoding *)

(** A tag no prototype carries is [UnknownCommand]. *)
Theorem decode_unknown (protos : list F) (reg : gmap Z F) (tag : Z) (payload : bytes) :
  build_registry protos = Ok reg → tag ∉ key <$> protos →
  decode reg tag payload = Err (CodecError UnknownCommand).
Proof.
  intros Hb Ht. unfold decode.
  by rewrite (proj2 (build_registry_fresh protos reg tag Hb) Ht).
Qed.

Context `{!FrameLaws F}.

(** A decoded frame carries the tag it was decoded under, is well formed
    and populated. *)
Theorem decode_Ok (protos : list F) (reg : gmap Z F) (tag : Z) (payload : bytes) (f : F) :
  build_registry protos = Ok reg → Forall frame_wf protos →
  decode reg tag payload = Ok f →
  key f = tag ∧ frame_wf f ∧ populated f = true.
Proof.
  intros Hb Hwf Hd. unfold decode in Hd.
  destruct (reg !! tag) as [g|] eqn:Hg; [|discriminate].
  apply (build_registry_lookup protos reg Hb) in Hg as [Hin <-].
  rewrite Forall_forall in Hwf.
  destruct (from_payload_wf payload g f (Hwf g Hin) Hd) as (? & Hc & ?).
  unfold key. by rewrite Hc.
Qed.

(** ** The round trip through bytes *)

(** Every canonical frame whose class is registered is read back from its
    bytes: the tag selects its class's prototype and the payload decodes
    to the frame. *)
Theorem frame_roundtrip (protos : list F) (reg : gmap Z F) (f : F) :
  build_registry protos = Ok reg → Forall frame_wf protos →
  canonical f → (∃ g, g ∈ protos ∧ frame_command g = frame_command f) →
  ∃ raw, frame_to_bytes f = Ok raw ∧ frame_of_bytes reg raw = Ok f.
Proof.
  intros Hb Hwf Hf (g & Hin & Hg).
  destruct (payload_roundtrip f g Hf (proj1 (Forall_forall _ _) Hwf g Hin) Hg)
    as (p & Hp & Hd).
  unfold frame_to_bytes. rewrite Hp. eexists; split; [reflexivity|]. cbn [mbind result_bind].
  rewrite frame_of_bytes_tag by apply value_bounds. unfold decode.
  assert (reg !! key f = Some g) as ->.
  { apply (build_registry_lookup protos reg Hb). unfold key. by rewrite Hg. }
  exact Hd.
Qed.

End Registry.

End FrameRegistry.
