(* ===== verification/Frames.v ===== *)
(** * The password-enter frames together, and their registry

    The closed sum [frame] of the two classes of frame_password_enter.py,
    with the [Frame] instance that dispatches on the variant (the spec's
    design note on polymorphic dispatch), its laws derived from those of the
    two classes, and the registry built from the two default-constructed
    prototypes.

    The theorems instantiate the generic registry theorems: the registry
    builds, the two tags decode to their classes and every other tag is
    [UnknownCommand], every canonical password-enter frame survives the
    round trip through bytes, every decoding error maps to an error kind of
    the spec or is [UnicodeDecodeError], and any run of calls keeps a frame's
    command. *)

From stdpp Require Import base list decidable gmap strings.
From Stdlib Require Import ZArith Lia.
From S2P Require Import Prelude ErrorKinds Utf8 StringHelper Command FrameBase.
From S2P Require Import PasswordEnterRequest PasswordEnterConfirmation FrameRegistry.
Open Scope Z_scope.

Module Frames.
Import ErrorKinds Command FrameBase FrameRegistry.
Import (hints) Request Confirmation.

Inductive frame :=
  | FrameRequest (f : Request.FramePasswordEnterRequest)
  | FrameConfirmation (f : Confirmation.FramePasswordEnterConfirmation).

#[export] Instance frame_frame : Frame frame := {|
  frame_command f := match f with
    | FrameRequest r => Request.command r
    | FrameConfirmation c => Confirmation.command c end;
  get_payload f := match f with
    | FrameRequest r => Request.get_payload r
    | FrameConfirmation c => Confirmation.get_payload c end;
  from_payload p f := match f with
    | FrameRequest r => FrameRequest <$> Request.from_payload p r
    | FrameConfirmation c => FrameConfirmation <$> Confirmation.from_payload p c end;
  frame_str f := match f with
    | FrameRequest r => Request.__str__ r
    | FrameConfirmation c => Confirmation.__str__ c end;
  populated f := match f with
    | FrameRequest r => FrameBase.populated r
    | FrameConfirmation c => FrameBase.populated c end
|}.

Definition frame_wf (f : frame) : Prop :=
  match f with
  | FrameRequest r => FrameBase.frame_wf r
  | FrameConfirmation c => FrameBase.frame_wf c
  end.

Definition frame_canonical (f : frame) : Prop :=
  match f with
  | FrameRequest r => FrameBase.canonical r
  | FrameConfirmation c => FrameBase.canonical c
  end.

(** ** The laws of the sum, from the laws of the two classes *)

Lemma frame_from_payload_wf (p : bytes) (f f' : frame) :
  frame_wf f → from_payload p f = Ok f' →
  frame_wf f' ∧ frame_command f' = frame_command f ∧ populated f' = true.
Proof.
  destruct f as [r|c]; cbn; intros Hwf Hp; result_inv; cbn.
  - exact (FrameBase.from_payload_wf p r a Hwf Ha).
  - exact (FrameBase.from_payload_wf p c a Hwf Ha).
Qed.

Lemma frame_get_payload_populated (f : frame) (p : bytes) :
  get_payload f = Ok p → populated f = true.
Proof.
  destruct f as [r|c]; cbn; intros Hp.
  - exact (FrameBase.get_payload_populated r p Hp).
  - exact (FrameBase.get_payload_populated c p Hp).
Qed.

Lemma frame_payload_roundtrip (f g : frame) :
  frame_canonical f → frame_wf g → frame_command g = frame_command f →
  ∃ p, get_payload f = Ok p ∧ from_payload p g = Ok f.
Proof.
  destruct f as [r|c], g as [r'|c']; cbn; intros Hf Hg Hc.
  - destruct (@FrameBase.payload_roundtrip _ _ Request.request_frame_laws r r' Hf Hg Hc)
      as (p & Hp & Hd).
    exists p. split; [exact Hp | cbn in Hd; by rewrite Hd].
  - destruct Hf as [Hf _]. unfold Request.request_wf,
      Confirmation.confirmation_wf in *. congruence.
  - unfold Request.request_wf, Confirmation.confirmation_wf in *. congruence.
  - destruct (@FrameBase.payload_roundtrip _ _ Confirmation.confirmation_frame_laws c c' Hf Hg Hc)
      as (p & Hp & Hd).
    exists p. split; [exact Hp | cbn in Hd; by rewrite Hd].
Qed.

#[export] Instance frame_frame_laws : FrameLaws frame := {|
  FrameBase.frame_wf := frame_wf;
  FrameBase.canonical := frame_canonical;
  FrameBase.canonical_wf f := match f with
    | FrameRequest r => FrameBase.canonical_wf r
    | FrameConfirmation c => FrameBase.canonical_wf c end;
  FrameBase.from_payload_wf := frame_from_payload_wf;
  FrameBase.get_payload_populated := frame_get_payload_populated;
  FrameBase.payload_roundtrip := frame_payload_roundtrip
|}.

(** ** The registry of the password-enter frames *)

(** The prototypes: each class constructed with its defaults. *)
Definition prototypes : list frame :=
  [FrameRequest (Request.init None); FrameConfirmation (Confirmation.init Confirmation.SUCCESSFUL)].

Definition registry : result (gmap Z frame) := build_registry prototypes.

(** ** Theorems *)

Lemma prototypes_wf : Forall frame_wf prototypes.
Proof. repeat constructor. Qed.

Lemma registry_builds : ∃ reg, registry = Ok reg.
Proof. apply build_registry_Ok_iff. repeat constructor; cbn; set_solver. Qed.

Lemma registry_Ok (reg : gmap Z frame) :
  registry = Ok reg → ∀ k f, reg !! k = Some f ↔ f ∈ prototypes ∧ key f = k.
Proof. apply build_registry_lookup. Qed.

(** C29: The registry builds: the two commands are distinct, and it maps each
    command value to its class's prototype and nothing else. *)
Theorem registry_lookup :
  ∃ reg, registry = Ok reg ∧
    ∀ k f, reg !! k = Some f ↔ f ∈ prototypes ∧ key f = k.
Proof.
  destruct registry_builds as [reg Hreg]. exists reg. split; [done|]. by apply registry_Ok.
Qed.

(** C28: A tag other than the two password-enter commands is [UnknownCommand]. *)
Theorem registry_unknown (reg : gmap Z frame) (tag : Z) (payload : bytes) :
  registry = Ok reg → tag ≠ value GW_PASSWORD_ENTER_REQ → tag ≠ value GW_PASSWORD_ENTER_CFM →
  decode reg tag payload = Err (CodecError UnknownCommand).
Proof.
  intros Hreg H1 H2. apply (decode_unknown prototypes); [done|].
  cbn. rewrite !elem_of_cons, elem_of_nil. naive_solver.
Qed.

(** C20: Every error of [decode] is [UnknownCommand] or [MalformedPayload], or a
    [UnicodeDecodeError] of the password, which the spec does not list. *)
Theorem registry_decode_errors (reg : gmap Z frame) (tag : Z) (payload : bytes) (e : exn) :
  registry = Ok reg → decode reg tag payload = Err e →
  spec_error e = Some UnknownCommand ∨ spec_error e = Some MalformedPayload ∨
  e = UnicodeDecodeError.
Proof.
  intros Hreg Hd. pose proof (registry_Ok reg Hreg) as Hl. unfold decode in Hd.
  destruct (reg !! tag) as [g|] eqn:Hg; [|injection Hd as <-; auto].
  apply Hl in Hg as [Hin _]. unfold prototypes in Hin. rewrite !elem_of_cons, elem_of_nil in Hin.
  destruct Hin as [->|[->|[]]]; cbn in Hd.
  - unfold Request.from_payload, StringHelper.bytes_to_string in Hd.
    destruct (Utf8.decode _); cbn in Hd; [discriminate|]. injection Hd as <-. auto.
  - destruct (Confirmation.from_payload payload _) eqn:Hc; cbn in Hd; [discriminate|].
    injection Hd as <-. apply Confirmation.from_payload_Err_kind in Hc. naive_solver.
Qed.

(** C16: Every canonical password-enter frame survives the round trip through
    its bytes and the registry. *)
Theorem registry_roundtrip (f : frame) :
  frame_canonical f →
  ∃ reg raw, registry = Ok reg ∧ frame_to_bytes f = Ok raw ∧ frame_of_bytes reg raw = Ok f.
Proof.
  intros Hf. destruct registry_builds as [reg Hreg].
  destruct (@frame_roundtrip _ _ frame_frame_laws prototypes reg f Hreg prototypes_wf Hf)
    as (raw & ? & ?).
  - destruct f as [r|c]; [destruct Hf as [Hf _]|].
    + exists (FrameRequest (Request.init None)). split; [left | exact (eq_sym Hf)].
    + exists (FrameConfirmation (Confirmation.init Confirmation.SUCCESSFUL)).
      split; [right; left | exact (eq_sym Hf)].
  - eauto.
Qed.


(** C25: Along any sequence of calls a password-enter frame keeps its command
    and, once populated, stays populated. *)
Theorem frame_run_invariant (f0 : frame) (ops : list frame_op) :
  frame_wf f0 →
  frame_command (frame_run f0 ops).1 = frame_command f0 ∧
  (populated f0 = true → populated (frame_run f0 ops).1 = true).
Proof.
  intros Hwf. pose proof (frame_run_lifecycle f0 f0 ops (lc_init f0)) as Hl.
  split.
  - exact (proj2 (@lifecycle_command _ _ frame_frame_laws f0 _ Hwf Hl)).
  - intros Hp. exact (@lifecycle_populated _ _ frame_frame_laws f0 _ Hwf Hp Hl).
Qed.


(** ** Witnesses *)

Lemma registry_unknown_witness :
  ∃ reg, registry = Ok reg ∧ decode reg 0x3002 [] = Err (CodecError UnknownCommand).
Proof.
  eexists. split; [reflexivity|].
  apply registry_unknown; [reflexivity | simpl; lia | simpl; lia].
Defined.

Lemma registry_decode_errors_witness :
  ∃ reg, registry = Ok reg ∧
    (spec_error IndexError = Some UnknownCommand ∨
     spec_error IndexError = Some MalformedPayload ∨ IndexError = UnicodeDecodeError).
Proof.
  eexists. split; [reflexivity|].
  eapply (registry_decode_errors _ (value GW_PASSWORD_ENTER_CFM) []); [reflexivity|].
  vm_compute. reflexivity.
Defined.

Lemma registry_roundtrip_witness :
  ∃ reg raw, registry = Ok reg ∧
    frame_to_bytes (FrameConfirmation (Confirmation.init Confirmation.FAILED)) = Ok raw ∧
    frame_of_bytes reg raw = Ok (FrameConfirmation (Confirmation.init Confirmation.FAILED)).
Proof. apply registry_roundtrip. reflexivity. Defined.

Lemma frame_run_invariant_witness :
  frame_command (frame_run (FrameRequest (Request.init None))
                   [OpStr; OpFromPayload [0x61]; OpGetPayload]).1 = GW_PASSWORD_ENTER_REQ ∧
  (populated (FrameRequest (Request.init None)) = true →
   populated (frame_run (FrameRequest (Request.init None))
                [OpStr; OpFromPayload [0x61]; OpGetPayload]).1 = true).
Proof. apply (frame_run_invariant (FrameRequest (Request.init None))). reflexivity. Defined.


End Frames.
