(* ===== verification/CodecSpec.v ===== *)
(** * The codec the spec describes, and the code against it

    An abstract specification of the two password-enter frames, written from
    the spec and independent of the source:
    - the reference codec of sections 4.3 and 4.4: [request_payload_ref]
      (MissingField when unset, otherwise [string_to_bytes] with maximum size
      32) and [confirmation_status_ref] (MalformedPayload on an empty payload
      or an unknown status byte);
    - the frames as abstract values [abs_frame] (a password, a status) and the
      wire format of section 6 as the relation [wire_frame]: the command tag,
      then the UTF-8 password zero-padded to 32 bytes, or the status byte
      with SUCCESSFUL = 0 and FAILED = 1 (section 3).

    The theorems: the source's [get_payload] of the request and
    [from_payload] of the confirmation equal the reference codec up to the
    spec's error kinds ([≡] of [ErrorKinds]); and the concrete codec refines
    the wire format in both directions: every frame written is the wire form
    of the frame's abstraction, and every wire form of an abstract frame is
    read back through the registry to a frame with that abstraction. *)

From stdpp Require Import base list decidable gmap strings.
From Stdlib Require Import ZArith Lia Morphisms.
From S2P Require Import Prelude ErrorKinds Utf8 StringHelper Command FrameBase.
From S2P Require Import PasswordEnterRequest PasswordEnterConfirmation FrameRegistry Frames.
Open Scope Z_scope.

Module CodecSpec.
Import ErrorKinds Command FrameBase FrameRegistry Frames.
Import (hints) Utf8.

(** ** The reference codec *)

Definition request_payload_ref (password : option pystr) : result bytes :=
  match password with
  | None => Err (CodecError MissingField)
  | Some pw => StringHelper.string_to_bytes pw 32
  end.

(** The status values of section 3. *)
Definition status_code (s : Confirmation.PasswortEnterConfirmationStatus) : Z :=
  match s with
  | Confirmation.SUCCESSFUL => 0
  | Confirmation.FAILED => 1
  end.

Definition confirmation_status_ref (p : bytes)
    : result Confirmation.PasswortEnterConfirmationStatus :=
  match p with
  | [] => Err (CodecError MalformedPayload)
  | b :: _ =>
      if b =? 0 then Ok Confirmation.SUCCESSFUL
      else if b =? 1 then Ok Confirmation.FAILED
      else Err (CodecError MalformedPayload)
  end.

(** ** The wire format *)

Inductive abs_frame :=
  | AbsPasswordEnterReq (password : pystr)
  | AbsPasswordEnterCfm (status : Confirmation.PasswortEnterConfirmationStatus).

Definition abs_command (a : abs_frame) : Command :=
  match a with
  | AbsPasswordEnterReq _ => GW_PASSWORD_ENTER_REQ
  | AbsPasswordEnterCfm _ => GW_PASSWORD_ENTER_CFM
  end.

Inductive wire_payload : abs_frame → bytes → Prop :=
  | wire_req (pw : pystr) (enc : bytes) :
      Utf8.encode pw = Some enc → (length enc ≤ 32)%nat →
      wire_payload (AbsPasswordEnterReq pw) (enc ++ replicate (32 - length enc) 0)
  | wire_cfm (s : Confirmation.PasswortEnterConfirmationStatus) :
      wire_payload (AbsPasswordEnterCfm s) [status_code s].

Definition wire_frame (a : abs_frame) (raw : bytes) : Prop :=
  ∃ p, raw = tag_to_bytes (value (abs_command a)) ++ p ∧ wire_payload a p.

(** The abstract frame a concrete frame stands for: none for a request
    without password. *)
Definition abs_of (f : frame) : option abs_frame :=
  match f with
  | FrameRequest r => AbsPasswordEnterReq <$> Request.password r
  | FrameConfirmation c => Some (AbsPasswordEnterCfm (Confirmation.status c))
  end.

(** The abstract frames the wire can carry unchanged: a Python string
    without NUL character. *)
Definition abs_ok (a : abs_frame) : Prop :=
  match a with
  | AbsPasswordEnterReq pw => Forall Utf8.cp_ok pw ∧ Forall (λ c, c ≠ 0) pw
  | AbsPasswordEnterCfm _ => True
  end.

(** The type invariant of a frame: its class's command, and a password that
    is a Python string. *)
Definition frame_type_ok (f : frame) : Prop :=
  frame_wf f ∧
  match f with
  | FrameRequest r => ∀ pw, Request.password r = Some pw → Forall Utf8.cp_ok pw
  | FrameConfirmation _ => True
  end.

(** The prototype the registry holds for each abstract frame's command. *)
Definition proto_of (a : abs_frame) : frame :=
  match a with
  | AbsPasswordEnterReq _ => FrameRequest (Request.init None)
  | AbsPasswordEnterCfm _ => FrameConfirmation (Confirmation.init Confirmation.SUCCESSFUL)
  end.

(** The frame an abstract frame stands for, as the caller constructs it. *)
Definition frame_of_abs (a : abs_frame) : frame :=
  match a with
  | AbsPasswordEnterReq pw => FrameRequest (Request.init (Some pw))
  | AbsPasswordEnterCfm s => FrameConfirmation (Confirmation.init s)
  end.

(** ** Lemmas *)

Lemma scalar_encodes (pw : pystr) :
  Forall Utf8.scalar_ok pw → ∃ enc, Utf8.encode pw = Some enc.
Proof.
  intros H. apply Utf8.encode_Some_iff. eapply Forall_impl; [exact H|].
  by intros c [_ ?].
Qed.

Lemma status_code_value (s : Confirmation.PasswortEnterConfirmationStatus) :
  status_code s = Confirmation.value s.
Proof. by destruct s. Qed.

Lemma registry_proto (reg : gmap Z frame) (a : abs_frame) :
  registry = Ok reg → reg !! value (abs_command a) = Some (proto_of a).
Proof.
  intros Hreg. apply (registry_Ok reg Hreg).
  unfold prototypes. rewrite !elem_of_cons. destruct a; cbn; auto.
Qed.

(** The request's payload is the wire form of its password. *)
Lemma request_wire_payload (pw : pystr) (p : bytes) :
  Request.get_payload (Request.init (Some pw)) = Ok p → wire_payload (AbsPasswordEnterReq pw) p.
Proof.
  intros Hp%Request.get_payload_Ok. unfold StringHelper.string_to_bytes, Request.MAX_SIZE in Hp.
  destruct (Utf8.encode pw) as [enc|] eqn:He; [|discriminate].
  case_decide; [|discriminate]. injection Hp as <-. by apply wire_req.
Qed.

(** The wire form of a password without NUL decodes to that password. *)
Lemma request_wire_decodes (pw : pystr) (enc : bytes) (g : Request.FramePasswordEnterRequest) :
  Forall Utf8.cp_ok pw → Forall (λ c, c ≠ 0) pw →
  Utf8.encode pw = Some enc → (length enc ≤ 32)%nat →
  Request.from_payload (enc ++ replicate (32 - length enc) 0) g =
    Ok {| Request.command := Request.command g; Request.password := Some pw |}.
Proof.
  intros Hok Hnul He Hl.
  rewrite <- (StringHelper.until_nul_id pw Hnul) at 1.
  apply Request.from_payload_string_to_bytes; [done|].
  unfold StringHelper.string_to_bytes, Request.MAX_SIZE. by rewrite He, decide_True.
Qed.

(** A request's password set by [from_payload] is a decoded string. *)
Lemma request_from_payload_password (p : bytes) (r r' : Request.FramePasswordEnterRequest) :
  Request.from_payload p r = Ok r' →
  Request.command r' = Request.command r ∧
  ∃ pw, Request.password r' = Some pw ∧ Forall Utf8.scalar_ok pw ∧ Forall (λ c, c ≠ 0) pw.
Proof.
  unfold Request.from_payload. destruct (StringHelper.bytes_to_string p) as [pw|] eqn:Hb;
    cbn; [|discriminate]. intros [= <-].
  split; [done|]. exists pw. split; [done|]. split; [|by eapply StringHelper.bytes_to_string_nonzero].
  unfold StringHelper.bytes_to_string in Hb.
  destruct (Utf8.decode _) as [s'|] eqn:Hd; [injection Hb as <-|discriminate].
  exact (proj1 (Utf8.encode_decode _ _ Hd)).
Qed.

Lemma scalar_cp_ok (pw : pystr) : Forall Utf8.scalar_ok pw → Forall Utf8.cp_ok pw.
Proof. intros H. eapply Forall_impl; [exact H|]. by intros c []. Qed.

(** What [frame_to_bytes] writes is the wire form of the frame's
    abstraction. *)
Lemma frame_to_bytes_wire (f : frame) (raw : bytes) :
  frame_wf f → frame_to_bytes f = Ok raw → ∃ a, abs_of f = Some a ∧ wire_frame a raw.
Proof.
  intros Hwf Hraw. unfold frame_to_bytes in Hraw. result_inv.
  destruct f as [r|c]; cbn in Hwf, Ha |- *.
  - destruct (Request.password r) as [pw|] eqn:Hpw;
      [|unfold Request.get_payload in Ha; rewrite Hpw in Ha; discriminate].
    eexists; split; [reflexivity|]. exists a. unfold key; cbn. rewrite Hwf. split; [done|].
    apply request_wire_payload. by rewrite <- Hpw, <- (Request.init_eta r Hwf).
  - eexists; split; [reflexivity|]. exists a. unfold key; cbn. rewrite Hwf. split; [done|].
    rewrite Confirmation.get_payload_value in Ha. injection Ha as <-.
    rewrite <- status_code_value. constructor.
Qed.

Lemma frame_of_abs_ok (a : abs_frame) :
  abs_ok a → abs_of (frame_of_abs a) = Some a ∧ frame_type_ok (frame_of_abs a).
Proof.
  destruct a as [pw|s]; cbn; [intros [Hok _] | intros _]; repeat split; try done.
  by intros ? [= <-].
Qed.

(** The wire form of an abstract frame is read as the frame it stands for. *)
Lemma wire_decodes (reg : gmap Z frame) (a : abs_frame) (raw : bytes) :
  registry = Ok reg → abs_ok a → wire_frame a raw → frame_of_bytes reg raw = Ok (frame_of_abs a).
Proof.
  intros Hreg Ha (p & -> & Hw).
  rewrite frame_of_bytes_tag by apply value_bounds. unfold decode.
  rewrite (registry_proto reg a Hreg).
  destruct Hw as [pw enc He Hl|s]; cbn.
  - destruct Ha as [Hok Hnul]. by rewrite (request_wire_decodes pw enc _ Hok Hnul He Hl).
  - by rewrite status_code_value, Confirmation.status_of_value_value.
Qed.

(** ... and the frame writes that wire form. *)
Lemma wire_encodes (a : abs_frame) (raw : bytes) :
  abs_ok a → wire_frame a raw → frame_to_bytes (frame_of_abs a) = Ok raw.
Proof.
  intros Ha (p & -> & Hw). destruct Hw as [pw enc He Hl|s].
  - destruct Ha as [Hok _].
    assert (get_payload (frame_of_abs (AbsPasswordEnterReq pw)) =
            Ok (enc ++ replicate (32 - length enc) 0)) as Hp.
    { change (Request.get_payload (Request.init (Some pw)) = Ok (enc ++ replicate (32 - length enc) 0)).
      rewrite (Request.get_payload_fits pw enc Hok He Hl).
      unfold StringHelper.string_to_bytes, Request.MAX_SIZE. by rewrite He, decide_True. }
    unfold frame_to_bytes. by rewrite Hp.
  - assert (get_payload (frame_of_abs (AbsPasswordEnterCfm s)) = Ok [status_code s]) as Hp.
    { change (Confirmation.get_payload (Confirmation.init s) = Ok [status_code s]).
      rewrite Confirmation.get_payload_value. by destruct s. }
    unfold frame_to_bytes. by rewrite Hp.
Qed.

(** A frame returned by [from_payload] stands for an abstract frame the
    wire carries. *)
Lemma from_payload_abs_ok (p : bytes) (g f : frame) :
  from_payload p g = Ok f → ∃ a, abs_of f = Some a ∧ abs_ok a.
Proof.
  destruct g as [r|c]; cbn; intros Hf; result_inv; cbn; [|by eexists].
  destruct (request_from_payload_password p r a Ha) as (_ & pw & -> & Hok%scalar_cp_ok & Hnul).
  by eexists.
Qed.

Lemma frame_of_bytes_abs (reg : gmap Z frame) (raw : bytes) (f : frame) :
  registry = Ok reg → frame_of_bytes reg raw = Ok f →
  frame_wf f ∧ ∃ a, abs_of f = Some a ∧ abs_ok a.
Proof.
  intros Hreg Hf. destruct raw as [|hi [|lo p]]; try discriminate.
  change (decode reg (tag_of_bytes hi lo) p = Ok f) in Hf. split.
  { exact (proj1 (proj2 (@FrameRegistry.decode_Ok _ _ frame_frame_laws
                           prototypes reg _ p f Hreg prototypes_wf Hf))). }
  unfold decode in Hf. destruct (reg !! _) as [g|]; [|discriminate].
  by eapply from_payload_abs_ok.
Qed.

(** The length and the bytes of a wire payload. *)
Lemma wire_payload_bytes (a : abs_frame) (p : bytes) :
  (∀ pw, a = AbsPasswordEnterReq pw → Forall Utf8.cp_ok pw) → wire_payload a p →
  length p = match a with AbsPasswordEnterReq _ => 32%nat | AbsPasswordEnterCfm _ => 1%nat end ∧
  Forall byte_ok p.
Proof.
  intros Hok. destruct 1 as [pw enc He Hl|s].
  - destruct (Utf8.encode_bytes pw enc (Hok pw eq_refl) He) as [Hb _].
    rewrite length_app, length_replicate, Forall_app.
    split; [lia | split; [done | apply Forall_byte_ok_replicate]].
  - split; [done|]. rewrite status_code_value.
    destruct s; repeat constructor; unfold byte_ok; cbn; lia.
Qed.

(** ** Equivalence with the reference codec *)

(** C9: The request's [get_payload] is the reference codec up to error kinds:
    the character check of line 23 raises [PayloadTooLong] exactly where the
    reference does, since a string has at most as many characters as bytes.
    (On a string with a surrogate and more than 32 characters the source
    reports [PayloadTooLong] and the reference the encoding error.) *)
Theorem request_get_payload_equiv (self : Request.FramePasswordEnterRequest) :
  (∀ pw, Request.password self = Some pw → Forall Utf8.scalar_ok pw) →
  Request.get_payload self ≡ request_payload_ref (Request.password self).
Proof.
  intros Hok. unfold Request.get_payload, request_payload_ref, Request.MAX_SIZE.
  destruct (Request.password self) as [pw|]; [|by apply same_kind_spec with MissingField].
  specialize (Hok pw eq_refl). case_decide; [|reflexivity].
  destruct (scalar_encodes pw Hok) as [enc He].
  assert (Forall Utf8.cp_ok pw) as Hcp by (eapply Forall_impl; [exact Hok|]; by intros c []).
  pose proof (Utf8.encode_length pw enc Hcp He).
  unfold StringHelper.string_to_bytes. rewrite He, decide_False by lia.
  by apply same_kind_spec with PayloadTooLong.
Qed.

(** C17: The confirmation's [from_payload] is the reference decoder up to error
    kinds: [IndexError] and [ValueError] are both [MalformedPayload]. *)
Theorem confirmation_from_payload_equiv (p : bytes) (g : Confirmation.FramePasswordEnterConfirmation) :
  Confirmation.from_payload p g ≡
  (λ s, {| Confirmation.command := Confirmation.command g; Confirmation.status := s |})
    <$> confirmation_status_ref p.
Proof.
  unfold Confirmation.from_payload, py_getitem, confirmation_status_ref.
  destruct p as [|b rest]; cbn; [by apply same_kind_spec with MalformedPayload|].
  unfold Confirmation.of_value. zsimpl; try reflexivity.
  by apply same_kind_spec with MalformedPayload.
Qed.

(** ** Refinement of the wire format *)

(** C7: Encoding refines the wire format: every frame of the type invariant that
    [frame_to_bytes] writes is the wire form of its abstraction (a request
    without password writes nothing: [get_payload] raises). *)
Theorem encoder_refines (f : frame) (raw : bytes) :
  frame_type_ok f → frame_to_bytes f = Ok raw →
  ∃ a, abs_of f = Some a ∧ wire_frame a raw.
Proof. intros [Hwf _]. by apply frame_to_bytes_wire. Qed.

(** C8: Decoding refines the wire format: the wire form of every abstract frame
    the wire carries is read back through the registry to a frame of the
    type invariant with that abstraction. *)
Theorem decoder_refines (reg : gmap Z frame) (a : abs_frame) (raw : bytes) :
  registry = Ok reg → abs_ok a → wire_frame a raw →
  ∃ f, frame_of_bytes reg raw = Ok f ∧ abs_of f = Some a ∧ frame_type_ok f.
Proof.
  intros Hreg Ha Hw. exists (frame_of_abs a). split; [by apply wire_decodes|].
  by apply frame_of_abs_ok.
Qed.

(** C18: Every frame the registry decodes is of the type invariant (its
    class's command), and a decoded request is populated with a password of
    Unicode scalar values (no surrogate) without NUL character. *)
Theorem decode_type_ok (reg : gmap Z frame) (tag : Z) (p : bytes) (f : frame) :
  registry = Ok reg → FrameRegistry.decode reg tag p = Ok f →
  frame_type_ok f ∧
  match f with
  | FrameRequest r => ∃ pw, Request.password r = Some pw ∧
      Forall Utf8.scalar_ok pw ∧ Forall (λ c, c ≠ 0) pw
  | FrameConfirmation _ => True
  end.
Proof.
  intros Hreg Hd. assert (Hwf := proj1 (proj2 (@FrameRegistry.decode_Ok _ _ frame_frame_laws
                           prototypes reg tag p f Hreg prototypes_wf Hd))).
  unfold FrameRegistry.decode in Hd. destruct (reg !! tag) as [[r|c]|]; cbn in Hd;
    result_inv; [|done].
  destruct (request_from_payload_password p r a Ha) as (_ & pw & Hp & Hpw & Hnul).
  split; [split; [done|]|by eauto]. cbn. rewrite Hp. intros ? [= <-]. by apply scalar_cp_ok.
Qed.

(** C12: Bytes, frame, bytes: a frame read from bytes writes those bytes back
    exactly when they are the wire form of an abstract frame the wire
    carries; the bytes after a password's first zero byte and after the
    confirmation's status byte are not written back. *)
Theorem wire_bytes_roundtrip (reg : gmap Z frame) (raw : bytes) (f : frame) :
  registry = Ok reg → frame_of_bytes reg raw = Ok f →
  frame_to_bytes f = Ok raw ↔ ∃ a, abs_ok a ∧ wire_frame a raw.
Proof.
  intros Hreg Hf. split.
  - intros Hraw. destruct (frame_of_bytes_abs reg raw f Hreg Hf) as (Hwf & a & Ha & Hok).
    destruct (frame_to_bytes_wire f raw Hwf Hraw) as (a' & Ha' & Hw).
    rewrite Ha in Ha'. injection Ha' as <-. eauto.
  - intros (a & Hok & Hw). rewrite (wire_decodes reg a raw Hreg Hok Hw) in Hf.
    injection Hf as <-. by apply wire_encodes.
Qed.

(** C23: A request is written as 34 bytes, a confirmation as 3 (the 2-byte tag
    and the payload sizes of section 6), and every byte is in [0, 256). *)
Theorem frame_bytes_bounds (f : frame) (raw : bytes) :
  frame_type_ok f → frame_to_bytes f = Ok raw →
  length raw = match f with FrameRequest _ => 34%nat | FrameConfirmation _ => 3%nat end ∧
  Forall byte_ok raw.
Proof.
  intros [Hwf Hty] Hraw. destruct (frame_to_bytes_wire f raw Hwf Hraw) as (a & Ha & p & -> & Hw).
  destruct (tag_roundtrip (value (abs_command a)) (value_bounds _)) as [Ht _].
  rewrite length_app, Forall_app.
  destruct f as [r|c]; cbn in Ha, Hty.
  - destruct (Request.password r) as [pw|]; cbn in Ha; [injection Ha as <-|discriminate].
    destruct (wire_payload_bytes (AbsPasswordEnterReq pw) p) as [-> Hb]; [|exact Hw|done].
    intros pw' [= <-]. by apply Hty.
  - injection Ha as <-.
    by destruct (wire_payload_bytes (AbsPasswordEnterCfm (Confirmation.status c)) p) as [-> Hb].
Qed.

(** ** Witnesses *)

(** A password of 33 characters: the source raises the message of line 23,
    the reference [CodecError PayloadTooLong]; both are [PayloadTooLong]. *)
Lemma request_get_payload_equiv_witness :
  Request.get_payload (Request.init (Some (replicate 33 0x61))) ≡
  request_payload_ref (Some (replicate 33 0x61)).
Proof.
  apply (request_get_payload_equiv (Request.init (Some (replicate 33 0x61)))).
  intros pw [= <-]. decide_concrete.
Defined.

(** The password "é€" is written as the tag 0x3000, the five UTF-8 bytes
    and 27 zero bytes. *)
Lemma encoder_refines_witness :
  ∃ a, abs_of (FrameRequest (Request.init (Some [0xE9; 0x20AC]))) = Some a ∧
    wire_frame a ([0x30; 0x00; 0xC3; 0xA9; 0xE2; 0x82; 0xAC] ++ replicate 27 0).
Proof.
  apply encoder_refines.
  - split; [reflexivity|]. intros pw [= <-]. decide_concrete.
  - vm_compute. reflexivity.
Defined.

(** The password "é€" is read back from its wire form. *)
Lemma decoder_refines_witness :
  ∃ reg, registry = Ok reg ∧
    ∃ f, frame_of_bytes reg ([0x30; 0x00] ++ [0xC3; 0xA9; 0xE2; 0x82; 0xAC] ++ replicate 27 0) = Ok f ∧
      abs_of f = Some (AbsPasswordEnterReq [0xE9; 0x20AC]) ∧ frame_type_ok f.
Proof.
  eexists; split; [reflexivity|].
  eapply decoder_refines; [reflexivity | split; decide_concrete|].
  exists ([0xC3; 0xA9; 0xE2; 0x82; 0xAC] ++ replicate (32 - 5) 0). split; [reflexivity|].
  apply (wire_req [0xE9; 0x20AC] [0xC3; 0xA9; 0xE2; 0x82; 0xAC]); [reflexivity | cbn; lia].
Defined.

Lemma decode_type_ok_witness :
  ∃ reg, registry = Ok reg ∧
    Forall Utf8.scalar_ok [0xE9] ∧ Forall (λ c, c ≠ 0) [0xE9].
Proof.
  eexists; split; [reflexivity|].
  destruct (decode_type_ok _ 0x3000 [0xC3; 0xA9]
    (FrameRequest {| Request.command := GW_PASSWORD_ENTER_REQ; Request.password := Some [0xE9] |})
    eq_refl ltac:(vm_compute; reflexivity)) as [_ (pw & Hpw & Hs & Hn)].
  cbn in Hpw. injection Hpw as <-. split; [exact Hs | exact Hn].
Defined.

(** The confirmation bytes with an extra byte are read, but not written
    back. *)
Lemma wire_bytes_roundtrip_witness :
  ∃ reg, registry = Ok reg ∧
    (frame_to_bytes (FrameConfirmation (Confirmation.init Confirmation.FAILED)) = Ok [0x30; 0x01; 1; 7] ↔
     ∃ a, abs_ok a ∧ wire_frame a [0x30; 0x01; 1; 7]).
Proof.
  eexists; split; [reflexivity|].
  eapply wire_bytes_roundtrip; [reflexivity | vm_compute; reflexivity].
Defined.

Lemma frame_bytes_bounds_witness :
  length (tag_to_bytes 0x3000 ++ str_lit "hunter2" ++ replicate 25 0) = 34%nat ∧
  Forall byte_ok (tag_to_bytes 0x3000 ++ str_lit "hunter2" ++ replicate 25 0).
Proof.
  apply (frame_bytes_bounds (FrameRequest (Request.init (Some Request.hunter2)))).
  - split; [reflexivity|]. intros pw [= <-]. decide_concrete.
  - vm_compute. reflexivity.
Defined.

End CodecSpec.
